(** * Data validation framework: strategies and orchestrator

    A shallow embedding of [src/validation/strategies.py] and
    [src/validation/validator.py], with the small part of pandas and of
    Python's name resolution that the two modules rely on.

    - Python exceptions are values of [exn]; a computation that may raise
      has type [result A].
    - A float64 cell is a primitive binary64 float, so the arithmetic and
      the comparisons are the IEEE ones that numpy performs (NaN included);
      a decimal literal denotes the nearest binary64 value, as in Python.
      Integer and boolean columns are not modelled: a numeric column is a
      float64 column.
    - A DataFrame carries a default RangeIndex: row labels are the
      positions 0, 1, ..., which is what the connectors of
      [src/database] build ([pd.DataFrame(result)]).
    - A Python dict is an association list in insertion order, written
      only through [dict_set].
    - The strategies module is taken as loaded: the annotations of a
      signature are not evaluated when the function is defined.  What
      their eager evaluation does is [define_function] below. *)

From Stdlib Require Import List String ZArith Bool Lia PeanoNat.
From Stdlib Require Import Floats.
Import ListNotations.

#[local] Set Warnings "-register-all,-inexact-float".

Local Open Scope string_scope.
Local Open Scope list_scope.

(* ================================================================= *)
(** ** Exceptions and the error monad *)

Inductive exn : Type :=
| NameError (name : string)
| KeyError (key : string)
| TypeError (msg : string)
| ValueError (msg : string)
| IndexingError (msg : string)
| AttributeError (msg : string)
| DatabaseError (msg : string)
| ValidationError (msg : string).

Inductive result (A : Type) : Type :=
| Ok (a : A)
| Raise (e : exn).

Arguments Ok {A} a.
Arguments Raise {A} e.

Definition bind {A B : Type} (m : result A) (k : A -> result B) : result B :=
  match m with
  | Ok a => k a
  | Raise e => Raise e
  end.

Notation "x <- m ;; k" := (bind m (fun x => k))
  (at level 61, m at next level, right associativity).

(** [str(e)] for the exceptions above. *)
Definition exn_str (e : exn) : string :=
  match e with
  | NameError n => "name '" ++ n ++ "' is not defined"
  | KeyError k => "'" ++ k ++ "'"
  | TypeError m | ValueError m | IndexingError m | AttributeError m
  | DatabaseError m | ValidationError m => m
  end.

(** The message of the AttributeError for a missing attribute. *)
Definition no_attribute (cls attr : string) : exn :=
  AttributeError ("'" ++ cls ++ "' object has no attribute '" ++ attr ++ "'").

(* ================================================================= *)
(** ** Module namespaces

    A global name is resolved in the module's globals, then in the
    builtins; a name bound in neither raises NameError.  [builtins]
    lists the builtin functions, constants and exception classes in
    common use; [re], [List] and [ValidationError] are not builtins of
    Python. *)

Definition builtins : list string :=
  [ "abs"; "all"; "any"; "bool"; "bytes"; "callable"; "dict"; "dir";
    "enumerate"; "filter"; "float"; "format"; "getattr"; "hasattr"; "hash";
    "id"; "int"; "isinstance"; "issubclass"; "iter"; "len"; "list"; "map";
    "max"; "min"; "next"; "object"; "open"; "print"; "property"; "range";
    "repr"; "reversed"; "round"; "set"; "setattr"; "sorted"; "str"; "sum";
    "super"; "tuple"; "type"; "vars"; "zip";
    "None"; "True"; "False";
    "BaseException"; "Exception"; "ArithmeticError"; "AssertionError";
    "AttributeError"; "ImportError"; "IndexError"; "KeyError";
    "LookupError"; "NameError"; "NotImplementedError"; "OSError";
    "OverflowError"; "RuntimeError"; "StopIteration"; "TypeError";
    "ValueError"; "ZeroDivisionError" ].

(** Names bound at module level in [strategies.py]: its three import
    lines, then the classes it defines. *)
Definition strategies_imports : list string :=
  [ "ABC"; "abstractmethod"; "pd"; "Dict"; "Any" ].

Definition strategies_classes : list string :=
  [ "ValidationStrategy"; "NumericValidation"; "CategoricalValidation";
    "DateTimeValidation"; "NullValidation"; "DistributionValidation";
    "PatternValidation"; "CompositeValidation" ].

Definition strategies_globals : list string :=
  strategies_imports ++ strategies_classes.

(** Names bound at module level in [validator.py]. *)
Definition validator_globals : list string :=
  [ "Dict"; "Any"; "List"; "pd"; "DatabaseConnector"; "ValidationStrategy";
    "DataValidator" ].

Definition name_bound (globals : list string) (name : string) : bool :=
  existsb (String.eqb name) globals || existsb (String.eqb name) builtins.

Definition load_name (globals : list string) (name : string) : result unit :=
  if name_bound globals name then Ok tt else Raise (NameError name).

(** A [def] statement: with eager evaluation of annotations every
    global name of the signature is resolved when the function is
    defined, in order; with deferred evaluation none is. *)
Fixpoint resolve_all (globals : list string) (names : list string)
  : result unit :=
  match names with
  | [] => Ok tt
  | n :: rest => _ <- load_name globals n ;; resolve_all globals rest
  end.

Definition define_function (eager_annotations : bool)
  (globals annotation_names : list string) : result unit :=
  if eager_annotations then resolve_all globals annotation_names else Ok tt.

(** Global names a function body or signature mentions. *)
Definition PatternValidation_init_body_names : list string := [ "re" ].

Definition CompositeValidation_init_annotation_names : list string :=
  [ "List"; "ValidationStrategy" ].

(* ================================================================= *)
(** ** Python dicts *)

Section Dict.
Context {V : Type}.

Fixpoint dict_get (k : string) (d : list (string * V)) : option V :=
  match d with
  | [] => None
  | (k', v) :: d' => if String.eqb k k' then Some v else dict_get k d'
  end.

(** [d[k] = v]: overwrite in place, or append a new key. *)
Fixpoint dict_set (k : string) (v : V) (d : list (string * V))
  : list (string * V) :=
  match d with
  | [] => [(k, v)]
  | (k', v') :: d' =>
      if String.eqb k k' then (k, v) :: d' else (k', v') :: dict_set k v d'
  end.

Definition keys (d : list (string * V)) : list string := map fst d.

(** Truth value of a dict: non-empty. *)
Definition dict_truthy (d : list (string * V)) : bool :=
  match d with
  | [] => false
  | _ :: _ => true
  end.
End Dict.

(* ================================================================= *)
(** ** The pandas data model *)

(** One cell of a column, as [to_dict] hands it out. *)
Inductive cell : Type :=
| CFloat (x : float)
| CStr (s : string)
| CNone
| CTime (ns : Z)
| CNaT
| CBool (b : bool).

(** A column (a Series). [Float64]: NaN is the missing value.
    [Object]: Python strings, [None] missing.  [Datetime64 tz]: instants
    in nanoseconds, [None] is NaT; [tz = Some off] is a timezone-aware
    column at the fixed UTC offset of [off] seconds whose instants are
    kept in UTC, [tz = None] a naive column of wall-clock instants. *)
Inductive column : Type :=
| Float64 (xs : list float)
| Object (xs : list (option string))
| Datetime64 (tz : option Z) (xs : list (option Z)).

Definition cells (c : column) : list cell :=
  match c with
  | Float64 xs => map CFloat xs
  | Object xs => map (fun o => match o with Some s => CStr s | None => CNone end) xs
  | Datetime64 _ xs => map (fun o => match o with Some t => CTime t | None => CNaT end) xs
  end.

Definition series_len (c : column) : nat := List.length (cells c).

(** [index_len] is the length of the RangeIndex; every column of a
    well-formed frame has that many cells. *)
Record DataFrame : Type := mkDataFrame {
  index_len : nat;
  data : list (string * column)
}.

Definition columns (df : DataFrame) : list string := keys (data df).

(** [df[name]] *)
Definition getitem (df : DataFrame) (name : string) : result column :=
  match dict_get name (data df) with
  | Some c => Ok c
  | None => Raise (KeyError name)
  end.

(** [len(df)] *)
Definition len (df : DataFrame) : nat := index_len df.

(** [pd.api.types.is_*_dtype] *)
Definition is_numeric_dtype (c : column) : bool :=
  match c with Float64 _ => true | _ => false end.

Definition is_object_dtype (c : column) : bool :=
  match c with Object _ => true | _ => false end.

Definition is_string_dtype (c : column) : bool :=
  match c with Object _ => true | _ => false end.

Definition is_datetime64_any_dtype (c : column) : bool :=
  match c with Datetime64 _ _ => true | _ => false end.

(** Two Series aligned on the union of their RangeIndexes: the shorter
    one is padded with the missing value. *)
Fixpoint align {A B : Type} (da : A) (db : B) (xs : list A) (ys : list B)
  {struct xs} : list (A * B) :=
  match xs, ys with
  | [], _ => map (fun y => (da, y)) ys
  | x :: xs', [] => (x, db) :: align da db xs' []
  | x :: xs', y :: ys' => (x, y) :: align da db xs' ys'
  end.

(** [(e - a).abs()] with a float64 left operand.  Subtraction is
    element-wise after alignment: a text or timestamp operand raises
    TypeError, except that an object column without rows contributes
    only the NaN padding. *)
Definition series_sub_abs (e a : column) : result (list float) :=
  match e, a with
  | Float64 xs, Float64 ys =>
      Ok (map (fun p => PrimFloat.abs (PrimFloat.sub (fst p) (snd p)))
              (align PrimFloat.nan PrimFloat.nan xs ys))
  | Float64 xs, Object [] =>
      Ok (map (fun _ => PrimFloat.nan) xs)
  | _, _ => Raise (TypeError "unsupported operand type(s) for -")
  end.

(** [mask.any()] *)
Definition any (mask : list bool) : bool := existsb (fun b => b) mask.

(** [mask.sum()] *)
Definition count_true (mask : list bool) : nat :=
  List.length (filter (fun b => b) mask).

Fixpoint select_from {A : Type} (i : nat) (mask : list bool) (xs : list A)
  : list (nat * A) :=
  match mask, xs with
  | m :: mask', x :: xs' =>
      (if m then [(i, x)] else []) ++ select_from (S i) mask' xs'
  | _, _ => []
  end.

(** [df.loc[mask, column].to_dict()]: the cells at the rows where the
    mask holds, keyed by row label.  The mask is reindexed to the
    column's index, which fails when it does not cover it. *)
Definition loc_to_dict (mask : list bool) (c : column)
  : result (list (nat * cell)) :=
  if Nat.leb (series_len c) (List.length mask)
  then Ok (select_from 0 mask (cells c))
  else Raise (IndexingError "Unalignable boolean Series provided as indexer").

(** [mask[mask].index.tolist()] *)
Definition true_rows (mask : list bool) : list nat :=
  map fst (select_from 0 mask mask).

(** Element-wise [!=] of two equally indexed Series. *)
Definition series_ne {A : Type} (ne : A -> A -> bool) (xs ys : list A)
  : result (list bool) :=
  if Nat.eqb (List.length xs) (List.length ys)
  then Ok (map (fun p => ne (fst p) (snd p)) (combine xs ys))
  else Raise (ValueError "Can only compare identically-labeled Series objects").

(** Missing values: [None], NaN and NaT. *)
Definition isna (c : cell) : bool :=
  match c with
  | CNone | CNaT => true
  | CFloat x => negb (PrimFloat.eqb x x)
  | _ => false
  end.

Definition cell_eqb (x y : cell) : bool :=
  match x, y with
  | CFloat a, CFloat b => PrimFloat.eqb a b
  | CStr s, CStr t => String.eqb s t
  | CTime a, CTime b => Z.eqb a b
  | CBool a, CBool b => Bool.eqb a b
  | _, _ => false
  end.

(** [x != y] on two cells; a missing value differs from everything. *)
Definition py_ne (x y : cell) : bool :=
  isna x || isna y || negb (cell_eqb x y).

(** [cell == s] for a string literal [s]. *)
Definition eq_str (s : string) (c : cell) : bool :=
  match c with
  | CStr t => String.eqb t s
  | _ => false
  end.

(** *** Timestamps *)

(** A Series and an Index of timedeltas (nanoseconds) are different
    classes with different methods. *)
Inductive timedeltas : Type :=
| TdSeries (xs : list (option Z))
| TdIndex (xs : list (option Z)).

Definition td_values (t : timedeltas) : list (option Z) :=
  match t with TdSeries xs | TdIndex xs => xs end.

Definition td_with (t : timedeltas) (xs : list (option Z)) : timedeltas :=
  match t with TdSeries _ => TdSeries xs | TdIndex _ => TdIndex xs end.

Definition sub_instants (p : option Z * option Z) : option Z :=
  match p with
  | (Some x, Some y) => Some (x - y)%Z
  | _ => None
  end.

Definition nanos_per_second : Z := 1000000000.

(** [pd.DatetimeIndex(col).tz_localize(None)]: the wall-clock instants,
    with the timezone dropped. *)
Definition naive_index (c : column) : result (list (option Z)) :=
  match c with
  | Datetime64 None xs => Ok xs
  | Datetime64 (Some off) xs =>
      Ok (map (option_map (fun t => (t + off * nanos_per_second)%Z)) xs)
  | _ => Raise (TypeError "cannot convert to DatetimeIndex")
  end.

(** [e - a] on two DatetimeIndexes. *)
Definition index_sub (xs ys : list (option Z)) : result timedeltas :=
  if Nat.eqb (List.length xs) (List.length ys)
  then Ok (TdIndex (map sub_instants (combine xs ys)))
  else Raise (ValueError "cannot add indices of unequal length").

(** [e - a] on two timestamp Series: aligned on the index, and both
    sides naive or both aware. *)
Definition datetime_sub (e a : column) : result timedeltas :=
  match e, a with
  | Datetime64 None xs, Datetime64 None ys
  | Datetime64 (Some _) xs, Datetime64 (Some _) ys =>
      Ok (TdSeries (map sub_instants (align None None xs ys)))
  | _, _ => Raise (TypeError "unsupported operand type(s) for -")
  end.

(** [abs(t)] *)
Definition td_abs (t : timedeltas) : timedeltas :=
  td_with t (map (option_map Z.abs) (td_values t)).

(** [t > d]; a comparison with NaT is false. *)
Definition td_gt (t : timedeltas) (d : Z) : list bool :=
  map (fun o => match o with Some x => Z.ltb d x | None => false end)
      (td_values t).

(** [t[mask]] *)
Definition td_select (t : timedeltas) (mask : list bool) : timedeltas :=
  td_with t (map snd (select_from 0 mask (td_values t))).

(** [t.total_seconds()]: a method of TimedeltaIndex, returning an Index;
    a Series has it only under its [.dt] accessor.  The Index is kept in
    nanoseconds here. *)
Definition total_seconds (t : timedeltas) : result (list (option Z)) :=
  match t with
  | TdIndex xs => Ok xs
  | TdSeries _ => Raise (no_attribute "Series" "total_seconds")
  end.

(** [ix.to_dict()] on an Index: the class has no such method. *)
Definition index_to_dict (ix : list (option Z)) : result (list (nat * Z)) :=
  Raise (no_attribute "Index" "to_dict").

(** *** Library functions taken as given

    [Reductions]: the reductions of a float64 Series.  [TextFunctions]:
    [strftime] of one instant at a UTC offset, and [re.match] of a
    compiled pattern (kept as its source text) on a string. *)
Class Reductions : Type := {
  series_mean : list float -> float;
  series_median : list float -> float;
  series_std : list float -> float;
  series_min : list float -> float;
  series_max : list float -> float
}.

Class TextFunctions : Type := {
  strftime : string -> option Z -> Z -> string;
  re_match : string -> string -> bool
}.

(** [s.dt.strftime(fmt)] on selected rows. *)
Definition dt_strftime `{TextFunctions} (fmt : string) (c : column)
  (rows : list (nat * cell)) : list (nat * cell) :=
  match c with
  | Datetime64 tz _ =>
      map (fun r => match snd r with
                    | CTime t => (fst r, CStr (strftime fmt tz t))
                    | _ => (fst r, CNone)
                    end) rows
  | _ => rows
  end.

(** [col.str.match(pattern).fillna(False)] *)
Definition str_match `{TextFunctions} (pattern : string) (c : column)
  : result (list bool) :=
  match c with
  | Object xs =>
      Ok (map (fun o => match o with
                        | Some s => re_match pattern s
                        | None => false
                        end) xs)
  | _ => Raise (AttributeError "Can only use .str accessor with string values!")
  end.

(** The five statistics of a column, in the order of the dict literal.
    They are numeric reductions: on text they raise TypeError. *)
Definition describe `{Reductions} (c : column) : result (list (string * float)) :=
  match c with
  | Float64 xs =>
      Ok [ ("mean", series_mean xs); ("median", series_median xs);
           ("std", series_std xs); ("min", series_min xs);
           ("max", series_max xs) ]
  | _ => Raise (TypeError "could not convert to numeric")
  end.

(* ================================================================= *)
(** ** Outcomes *)

Inductive status_t : Type := Pass | Fail.

Definition status_eqb (s t : status_t) : bool :=
  match s, t with
  | Pass, Pass | Fail, Fail => true
  | _, _ => false
  end.

Record stat_detail : Type := mkStat {
  stat_expected : float;
  stat_actual : float;
  difference_pct : float
}.

(** The difference detail of one key; every strategy has its own shape,
    and the composite nests the [differences] of a sub-strategy. *)
Inductive detail : Type :=
| ValueDiff (expected actual : list (nat * cell))
| DateTimeDiff (expected actual : list (nat * cell))
               (difference_seconds : list (nat * Z))
| NullDiff (mismatched_rows expected_null_count actual_null_count : nat)
           (rows_with_differences : list nat)
| StatDiff (stats : list (string * stat_detail))
| PatternDiff (mismatched_rows : nat) (invalid_values : list (nat * cell))
| Nested (d : list (string * detail)).

Record outcome : Type := mkOutcome {
  status : status_t;
  differences : list (string * detail)
}.

(** [{'status': 'fail' if differences else 'pass', 'differences': differences}] *)
Definition report (differences : list (string * detail)) : outcome :=
  {| status := if dict_truthy differences then Fail else Pass;
     differences := differences |}.

(* ================================================================= *)
(** ** The strategies *)

(** An instance of one of the seven classes, with its attributes. *)
Inductive strategy : Type :=
| NumericValidation (tolerance : float)
| CategoricalValidation
| DateTimeValidation (timezone_aware : bool) (allowed_difference : Z)
| NullValidation (treat_empty_as_null : bool)
| DistributionValidation (threshold_pct : float)
| PatternValidation (patterns : list (string * string))
| CompositeValidation (strategies : list strategy).

(** [strategy.__class__.__name__] *)
Definition class_name (s : strategy) : string :=
  match s with
  | NumericValidation _ => "NumericValidation"
  | CategoricalValidation => "CategoricalValidation"
  | DateTimeValidation _ _ => "DateTimeValidation"
  | NullValidation _ => "NullValidation"
  | DistributionValidation _ => "DistributionValidation"
  | PatternValidation _ => "PatternValidation"
  | CompositeValidation _ => "CompositeValidation"
  end.

(** *** Constructors *)

(** [DateTimeValidation.__init__]:
    [pd.Timedelta(seconds=allow_time_difference_seconds)]. *)
Definition DateTimeValidation_init (timezone_aware : bool)
  (allow_time_difference_seconds : Z) : strategy :=
  DateTimeValidation timezone_aware
    (allow_time_difference_seconds * nanos_per_second)%Z.

(** [PatternValidation.__init__]: the comprehension evaluates
    [re.compile(v)] once per item of [patterns], and each evaluation
    starts by resolving the global name [re]. *)
Fixpoint compile_patterns (globals : list string)
  (items : list (string * string)) : result (list (string * string)) :=
  match items with
  | [] => Ok []
  | (k, v) :: rest =>
      _ <- load_name globals "re" ;;
      compiled <- compile_patterns globals rest ;;
      Ok ((k, v) :: compiled)
  end.

Definition PatternValidation_init (patterns : list (string * string))
  : result strategy :=
  compiled <- compile_patterns strategies_globals patterns ;;
  Ok (PatternValidation compiled).

(** *** The loop over [expected_data.columns]

    Every leaf strategy runs the same loop: a check of one column that
    yields its difference detail when the column mismatches, stored
    under the column's name. *)
Fixpoint for_columns (check : string -> result (option detail))
  (names : list string) (differences : list (string * detail))
  : result (list (string * detail)) :=
  match names with
  | [] => Ok differences
  | column :: rest =>
      r <- check column ;;
      for_columns check rest
        match r with
        | Some d => dict_set column d differences
        | None => differences
        end
  end.

Section Checks.
Context `{Reductions} `{TextFunctions}.
Variables expected_data actual_data : DataFrame.

(** [NumericValidation.validate], one column. *)
Definition NumericValidation_check (tolerance : float) (column : string)
  : result (option detail) :=
  e <- getitem expected_data column ;;
  if is_numeric_dtype e then
    a <- getitem actual_data column ;;
    diff <- series_sub_abs e a ;;
    let mask := map (fun d => PrimFloat.ltb tolerance d) diff in
    if any mask then
      exp <- loc_to_dict mask e ;;
      act <- loc_to_dict mask a ;;
      Ok (Some (ValueDiff exp act))
    else Ok None
  else Ok None.

(** [CategoricalValidation.validate], one column. *)
Definition CategoricalValidation_check (column : string)
  : result (option detail) :=
  e <- getitem expected_data column ;;
  if is_object_dtype e then
    a <- getitem actual_data column ;;
    mask <- series_ne py_ne (cells e) (cells a) ;;
    if any mask then
      exp <- loc_to_dict mask e ;;
      act <- loc_to_dict mask a ;;
      Ok (Some (ValueDiff exp act))
    else Ok None
  else Ok None.

(** [DateTimeValidation.validate], one column. *)
Definition DateTimeValidation_check (timezone_aware : bool)
  (allowed_difference : Z) (column : string) : result (option detail) :=
  e <- getitem expected_data column ;;
  if is_datetime64_any_dtype e then
    delta <-
      (if negb timezone_aware then
         expected_col <- naive_index e ;;
         a <- getitem actual_data column ;;
         actual_col <- naive_index a ;;
         index_sub expected_col actual_col
       else
         a <- getitem actual_data column ;;
         datetime_sub e a) ;;
    let time_diff := td_abs delta in
    let mask := td_gt time_diff allowed_difference in
    if any mask then
      exp <- loc_to_dict mask e ;;
      a <- getitem actual_data column ;;
      act <- loc_to_dict mask a ;;
      let fmt := "%Y-%m-%d %H:%M:%S%z" in
      seconds <- total_seconds (td_select time_diff mask) ;;
      secs <- index_to_dict seconds ;;
      Ok (Some (DateTimeDiff (dt_strftime fmt e exp) (dt_strftime fmt a act)
                             secs))
    else Ok None
  else Ok None.

(** The null-like flags of a column. *)
Definition null_flags (treat_empty_as_null : bool) (values : list cell)
  : list bool :=
  let nulls := map isna values in
  if treat_empty_as_null then
    map (fun p => fst p || snd p)
        (combine nulls
           (map (fun x => eq_str EmptyString x || eq_str "null/empty" x)
                values))
  else nulls.

(** [NullValidation.validate], one column. *)
Definition NullValidation_check (treat_empty_as_null : bool)
  (column : string) : result (option detail) :=
  e <- getitem expected_data column ;;
  let expected_nulls := null_flags treat_empty_as_null (cells e) in
  a <- getitem actual_data column ;;
  let actual_nulls := null_flags treat_empty_as_null (cells a) in
  mask <- series_ne xorb expected_nulls actual_nulls ;;
  if any mask then
    Ok (Some (NullDiff (count_true mask) (count_true expected_nulls)
                       (count_true actual_nulls) (true_rows mask)))
  else Ok None.

(** [abs(expected_value - actual_value) / expected_value * 100] *)
Definition percentage_difference (expected_value actual_value : float)
  : float :=
  PrimFloat.mul
    (PrimFloat.div
       (PrimFloat.abs (PrimFloat.sub expected_value actual_value))
       expected_value)
    100.

(** The inner loop of the distribution check, over the items of
    [expected_stats]. *)
Fixpoint stat_loop (threshold_pct : float)
  (expected_stats actual_stats : list (string * float))
  (stat_differences : list (string * stat_detail))
  : result (list (string * stat_detail)) :=
  match expected_stats with
  | [] => Ok stat_differences
  | (stat, expected_value) :: rest =>
      match dict_get stat actual_stats with
      | None => Raise (KeyError stat)
      | Some actual_value =>
          stat_loop threshold_pct rest actual_stats
            (if negb (PrimFloat.eqb expected_value 0) then
               let pct_diff :=
                 percentage_difference expected_value actual_value in
               if PrimFloat.ltb threshold_pct pct_diff then
                 dict_set stat (mkStat expected_value actual_value pct_diff)
                          stat_differences
               else stat_differences
             else stat_differences)
      end
  end.

(** [DistributionValidation.validate], one column. *)
Definition DistributionValidation_check (threshold_pct : float)
  (column : string) : result (option detail) :=
  e <- getitem expected_data column ;;
  if is_numeric_dtype e then
    expected_stats <- describe e ;;
    a <- getitem actual_data column ;;
    actual_stats <- describe a ;;
    stat_differences <- stat_loop threshold_pct expected_stats actual_stats [] ;;
    if dict_truthy stat_differences
    then Ok (Some (StatDiff stat_differences))
    else Ok None
  else Ok None.

(** [PatternValidation.validate], one column. *)
Definition PatternValidation_check (patterns : list (string * string))
  (column : string) : result (option detail) :=
  e <- getitem expected_data column ;;
  if is_string_dtype e then
    match dict_get column patterns with
    | Some column_pattern =>
        expected_matches <- str_match column_pattern e ;;
        a <- getitem actual_data column ;;
        actual_matches <- str_match column_pattern a ;;
        mask <- series_ne xorb expected_matches actual_matches ;;
        if any mask then
          invalid <- loc_to_dict (map negb actual_matches) a ;;
          Ok (Some (PatternDiff (count_true mask) invalid))
        else Ok None
    | None => Ok None
    end
  else Ok None.

(** The check a leaf strategy applies to each column. *)
Definition column_check (s : strategy) (column : string)
  : result (option detail) :=
  match s with
  | NumericValidation tolerance => NumericValidation_check tolerance column
  | CategoricalValidation => CategoricalValidation_check column
  | DateTimeValidation tz allowed => DateTimeValidation_check tz allowed column
  | NullValidation flag => NullValidation_check flag column
  | DistributionValidation threshold => DistributionValidation_check threshold column
  | PatternValidation patterns => PatternValidation_check patterns column
  | CompositeValidation _ => Ok None
  end.

(** [validate] of a leaf strategy. *)
Definition leaf_validate (s : strategy) : result outcome :=
  differences <- for_columns (column_check s) (columns expected_data) [] ;;
  Ok (report differences).

(** The loop of [CompositeValidation.validate] over outcomes computed
    by [run]. *)
Fixpoint composite_loop (run : strategy -> result outcome)
  (strategies : list strategy)
  (all_differences : list (string * detail)) (overall_status : status_t)
  : result outcome :=
  match strategies with
  | [] => Ok {| status := overall_status; differences := all_differences |}
  | strategy :: rest =>
      r <- run strategy ;;
      if status_eqb (status r) Fail then
        composite_loop run rest
          (dict_set (class_name strategy) (Nested (differences r))
                    all_differences)
          Fail
      else composite_loop run rest all_differences overall_status
  end.

(** [strategy.validate(expected_data, actual_data)], dispatched on the
    class of the instance.  The composite's loop is [composite_loop],
    written in place so that the recursion into the sub-strategies is
    structural ([validate_composite] below). *)
Fixpoint validate (s : strategy) {struct s} : result outcome :=
  match s with
  | CompositeValidation strategies =>
      (fix loop (l : list strategy) (all_differences : list (string * detail))
           (overall_status : status_t) {struct l} : result outcome :=
         match l with
         | [] => Ok {| status := overall_status;
                       differences := all_differences |}
         | strategy :: rest =>
             r <- validate strategy ;;
             if status_eqb (status r) Fail then
               loop rest
                 (dict_set (class_name strategy) (Nested (differences r))
                           all_differences)
                 Fail
             else loop rest all_differences overall_status
         end) strategies [] Pass
  | _ => leaf_validate s
  end.
End Checks.



(* ================================================================= *)
(** ** The orchestrator ([validator.py]) *)

(** A connector, seen through [execute_query(query, params)]. *)
Record DatabaseConnector : Type := mkConnector {
  execute_query : string -> option (list (string * string)) -> result DataFrame
}.

Record DataValidator : Type := mkValidator {
  source_db : DatabaseConnector;
  target_db : DatabaseConnector;
  validation_strategy : strategy;
  batch_size : Z
}.

Record summary : Type := mkSummary {
  summary_status : status_t;
  details : list (string * detail);
  source_rows : nat;
  target_rows : nat
}.

(** [a.intersection(b)] on two column indexes: the distinct labels of
    [a] that occur in [b]. *)
Definition intersection (a b : list string) : list string :=
  filter (fun c => existsb (String.eqb c) b) (nodup string_dec a).

(** [df[names]] for a list of labels. *)
Fixpoint select_columns (df : DataFrame) (names : list string)
  : result (list (string * column)) :=
  match names with
  | [] => Ok []
  | name :: rest =>
      c <- getitem df name ;;
      cs <- select_columns df rest ;;
      Ok ((name, c) :: cs)
  end.

Definition project (df : DataFrame) (names : list string) : result DataFrame :=
  cs <- select_columns df names ;;
  Ok {| index_len := index_len df; data := cs |}.

(** [raise ValidationError(msg)] in a module whose globals are
    [globals]: the class name is resolved first. *)
Definition raise_ValidationError {A : Type} (globals : list string)
  (msg : string) : result A :=
  _ <- load_name globals "ValidationError" ;;
  Raise (ValidationError msg).

Section Orchestrator.
Context `{Reductions} `{TextFunctions}.

(** The body of the [try] block of [validate_query]. *)
Definition validate_query_body (self : DataValidator)
  (source_query target_query : string)
  (params : option (list (string * string))) : result summary :=
  source_data <- execute_query (source_db self) source_query params ;;
  target_data <- execute_query (target_db self) target_query params ;;
  let common_columns :=
    intersection (columns source_data) (columns target_data) in
  source_data <- project source_data common_columns ;;
  target_data <- project target_data common_columns ;;
  r <- validate source_data target_data (validation_strategy self) ;;
  Ok {| summary_status := status r;
        details := if status_eqb (status r) Fail then differences r else [];
        source_rows := len source_data;
        target_rows := len target_data |}.

(** [DataValidator.validate_query]: [except Exception as e] catches
    every exception of the body. *)
Definition validate_query (self : DataValidator)
  (source_query target_query : string)
  (params : option (list (string * string))) : result summary :=
  match validate_query_body self source_query target_query params with
  | Ok s => Ok s
  | Raise e =>
      raise_ValidationError validator_globals
        ("Validation failed: " ++ exn_str e)
  end.

(** *** Calls as state transitions

    What a call of [validate] can reach: the instance and the two
    frames it is handed.  A call returns its outcome and the state it
    leaves behind. *)
Record world : Type := mkWorld {
  self_ : strategy;
  expected_ : DataFrame;
  actual_ : DataFrame
}.

Definition call_validate (w : world) : result outcome * world :=
  (validate (expected_ w) (actual_ w) (self_ w), w).
End Orchestrator.

(* ================================================================= *)
(** ** Series as objects

    The only in-place operation of the module is the [|=] of
    [NullValidation.validate].  Here the null flags are computed the way
    the statements do it, on a store of Series objects: every method
    call allocates its result, and [|=] overwrites its left operand. *)











(* ================================================================= *)
(** ** Reference reductions

    Plain left-to-right implementations of the five statistics, used to
    run the distribution check on concrete columns.  Missing values are
    skipped, the standard deviation is the sample one. *)

Definition float_sum (xs : list float) : float :=
  fold_left PrimFloat.add xs 0%float.

Definition float_count (xs : list float) : float :=
  fold_left (fun n _ => PrimFloat.add n 1) xs 0%float.

Definition dropna (xs : list float) : list float :=
  filter (fun x => PrimFloat.eqb x x) xs.

Fixpoint insert_sorted (x : float) (xs : list float) : list float :=
  match xs with
  | [] => [x]
  | y :: ys => if PrimFloat.leb x y then x :: y :: ys else y :: insert_sorted x ys
  end.

Definition float_sort (xs : list float) : list float :=
  fold_right insert_sorted [] xs.

Definition ref_mean (xs : list float) : float :=
  let ys := dropna xs in PrimFloat.div (float_sum ys) (float_count ys).

Definition ref_median (xs : list float) : float :=
  let ys := float_sort (dropna xs) in
  let n := List.length ys in
  if Nat.even n
  then PrimFloat.div
         (PrimFloat.add (nth (Nat.div2 n - 1) ys PrimFloat.nan)
                        (nth (Nat.div2 n) ys PrimFloat.nan)) 2
  else nth (Nat.div2 n) ys PrimFloat.nan.

Definition ref_std (xs : list float) : float :=
  let ys := dropna xs in
  let m := ref_mean ys in
  PrimFloat.sqrt
    (PrimFloat.div
       (float_sum (map (fun x => PrimFloat.mul (PrimFloat.sub x m)
                                               (PrimFloat.sub x m)) ys))
       (PrimFloat.sub (float_count ys) 1)).

Definition ref_min (xs : list float) : float :=
  match dropna xs with
  | [] => PrimFloat.nan
  | y :: ys => fold_left (fun m x => if PrimFloat.ltb x m then x else m) ys y
  end.

Definition ref_max (xs : list float) : float :=
  match dropna xs with
  | [] => PrimFloat.nan
  | y :: ys => fold_left (fun m x => if PrimFloat.ltb m x then x else m) ys y
  end.

Definition reference_reductions : Reductions :=
  {| series_mean := ref_mean; series_median := ref_median;
     series_std := ref_std; series_min := ref_min; series_max := ref_max |}.

(* ================================================================= *)
(** ** Reading an outcome *)

(** The row labels a leaf detail mentions. *)
Definition detail_rows (d : detail) : list nat :=
  match d with
  | ValueDiff expected actual => map fst expected ++ map fst actual
  | DateTimeDiff expected actual secs =>
      map fst expected ++ map fst actual ++ map fst secs
  | NullDiff _ _ _ rows => rows
  | PatternDiff _ invalid => map fst invalid
  | StatDiff _ | Nested _ => []
  end.

(** Row [i] of [column] is in the differences, with these two values. *)
Definition row_reported (out : outcome) (column : string) (i : nat)
  (x y : cell) : Prop :=
  exists expected actual,
    dict_get column (differences out) = Some (ValueDiff expected actual)
    /\ In (i, x) expected /\ In (i, y) actual.

(** Row [i] of [column] is nowhere in the differences. *)
Definition row_absent (out : outcome) (column : string) (i : nat) : Prop :=
  forall d, dict_get column (differences out) = Some d -> ~ In i (detail_rows d).

(** The statistic [stat] of [column] is flagged. *)
Definition stat_flagged (out : outcome) (column stat : string) : Prop :=
  exists stats sd,
    dict_get column (differences out) = Some (StatDiff stats)
    /\ dict_get stat stats = Some sd.

(** A frame of one column. *)
Definition single (name : string) (c : column) : DataFrame :=
  {| index_len := series_len c; data := [(name, c)] |}.

(** A connector that answers every query with the same result. *)
Definition constant_connector (r : result DataFrame) : DatabaseConnector :=
  {| execute_query := fun _ _ => r |}.

(** The mask of the numeric check on two float64 columns:
    [(e - a).abs() > tolerance]. *)
Definition numeric_mask (tolerance : float) (xs ys : list float) : list bool :=
  map (fun d => PrimFloat.ltb tolerance d)
      (map (fun p => PrimFloat.abs (PrimFloat.sub (fst p) (snd p)))
           (align PrimFloat.nan PrimFloat.nan xs ys)).

(** The frames of the scenarios: one column [amt] of two rows. *)
Definition scenario_expected : DataFrame :=
  single "amt" (Float64 [10; 20]%float).

Definition scenario_actual : DataFrame :=
  single "amt" (Float64 [10; 20.0005]%float).

(** Text functions restricted to literal arguments: a format without
    directives formats every instant as itself, and a pattern without
    metacharacters matches the subjects that start with it.  The
    concrete runs below use this instance; none of them reaches a call
    of either function. *)
Definition literal_text : TextFunctions :=
  {| strftime := fun fmt _ _ => fmt;
     re_match := fun pattern subject => String.prefix pattern subject |}.

(** Scenario C: a numeric column that agrees and a text column that
    differs in its second row. *)
Definition scenario_C_expected : DataFrame :=
  {| index_len := 2;
     data := [("amt", Float64 [10; 20]%float);
              ("city", Object [Some "Oslo"; Some "Bergen"])] |}.

Definition scenario_C_actual : DataFrame :=
  {| index_len := 2;
     data := [("amt", Float64 [10; 20]%float);
              ("city", Object [Some "Oslo"; Some "bergen"])] |}.

(** Two numeric sub-strategies of different tolerance on a difference
    of one half. *)
Definition half_apart_expected : DataFrame := single "amt" (Float64 [1]%float).
Definition half_apart_actual : DataFrame := single "amt" (Float64 [1.5]%float).

(** A sub-strategy fails on two frames: it returns an outcome whose
    status is fail. *)
Definition failed `{Reductions} `{TextFunctions}
  (expected_data actual_data : DataFrame) (s : strategy) : Prop :=
  exists o, validate expected_data actual_data s = Ok o /\ status o = Fail.

(** Two query results that share the column [amt] only. *)
Definition source_result : DataFrame :=
  {| index_len := 2;
     data := [("amt", Float64 [10; 20]%float);
              ("only_source", Float64 [1; 2]%float)] |}.

Definition target_result : DataFrame :=
  {| index_len := 2;
     data := [("only_target", Float64 [7; 8]%float);
              ("amt", Float64 [10; 25]%float)] |}.


(** The null-likeness of one cell under the flag. *)
Definition null_like (treat_empty_as_null : bool) (x : cell) : bool :=
  isna x
  || (treat_empty_as_null
      && (eq_str EmptyString x || eq_str "null/empty" x)).

(** Row [i] of [column] is among the rows the null strategy reports. *)
Definition null_row_reported (out : outcome) (column : string) (i : nat)
  : Prop :=
  exists mismatched expected_nulls actual_nulls rows,
    dict_get column (differences out)
    = Some (NullDiff mismatched expected_nulls actual_nulls rows)
    /\ In i rows.

(** An empty string against a missing value, in one row. *)
Definition empty_vs_missing_expected : DataFrame :=
  single "note" (Object [Some "a"; Some EmptyString]).

Definition empty_vs_missing_actual : DataFrame :=
  single "note" (Object [Some "a"; None]).

(** The relative percentage difference of an actual value to an
    expected one, as the words say it: the size of the difference as a
    percentage of the size of the expected value. *)
Definition relative_pct_difference (expected_value actual_value : float)
  : float :=
  PrimFloat.mul
    (PrimFloat.div
       (PrimFloat.abs (PrimFloat.sub expected_value actual_value))
       (PrimFloat.abs expected_value))
    100.

(** A column of negative amounts, and the same column doubled. *)
Definition negative_expected : DataFrame :=
  single "amt" (Float64 [-10; -10]%float).

Definition negative_actual : DataFrame :=
  single "amt" (Float64 [-20; -20]%float).

(** One timestamp, and the same timestamp five seconds later. *)
Definition instant_expected : DataFrame :=
  single "ts" (Datetime64 None [Some 0%Z]).

Definition instant_actual : DataFrame :=
  single "ts" (Datetime64 None [Some 5000000000%Z]).

(** A validator whose source connector fails to execute its query. *)
Definition failing_source_validator : DataValidator :=
  {| source_db :=
       constant_connector
         (Raise (DatabaseError "Failed to execute DuckDB query: boom"));
     target_db := constant_connector (Ok target_result);
     validation_strategy := NumericValidation 1e-6;
     batch_size := 25000%Z |}.

(** Running a pattern strategy from its configuration: construct, then
    validate. *)
Definition construct_and_validate `{Reductions} `{TextFunctions}
  (patterns : list (string * string)) (expected_data actual_data : DataFrame)
  : result outcome :=
  s <- PatternValidation_init patterns ;;
  validate expected_data actual_data s.

(** The rule of the inner loop: a statistic is flagged exactly when its
    expected value differs from zero and the percentage difference, as
    [percentage_difference] computes it, exceeds the threshold. *)
Definition flags (threshold_pct expected_value actual_value : float) : bool :=
  negb (PrimFloat.eqb expected_value 0)
  && PrimFloat.ltb threshold_pct
       (percentage_difference expected_value actual_value).

(** Row [i] of a float64 column holds no value: the row is beyond the
    column's end, or its cell is NaN. *)
Definition missing_at (xs : list float) (i : nat) : Prop :=
  match nth_error xs i with
  | Some x => PrimFloat.eqb x x = false
  | None => True
  end.

(** Columns of unequal length, with a NaN. *)
Definition ragged_expected : DataFrame :=
  single "amt" (Float64 [1; PrimFloat.nan; 3]%float).

Definition ragged_actual : DataFrame :=
  single "amt" (Float64 [9; 7]%float).

(** Text columns with an empty string, the literal [null/empty] and a
    missing value. *)
Definition null_patterns_expected : DataFrame :=
  single "note" (Object [Some "a"; Some "null/empty"; None; Some "b"]).

Definition null_patterns_actual : DataFrame :=
  single "note" (Object [None; Some EmptyString; Some "c"; Some "d"]).

(** The instant of a cell as the datetime strategy compares it: as
    stored when [timezone_aware] is set, on the wall clock of the
    column's timezone otherwise. *)
Definition compared_instant (timezone_aware : bool) (tz : option Z) (t : Z)
  : Z :=
  if timezone_aware then t
  else match tz with
       | Some off => (t + off * nanos_per_second)%Z
       | None => t
       end.

(** Text columns that differ in case and in missing values. *)
Definition cities_expected : DataFrame :=
  single "city" (Object [Some "Oslo"; Some "Bergen"; None; None]).

Definition cities_actual : DataFrame :=
  single "city" (Object [Some "Oslo"; Some "bergen"; Some "Moss"; None]).

(** The same instant, stored in UTC, in a column at UTC+1 and in a
    naive column. *)
Definition aware_expected : DataFrame :=
  single "ts" (Datetime64 (Some 3600%Z) [Some 0%Z]).

Definition naive_actual : DataFrame :=
  single "ts" (Datetime64 None [Some 0%Z]).

(** A column whose statistics all differ, and one with a zero
    baseline: every value of the expected column is 0. *)
Definition spread_expected : DataFrame :=
  single "amt" (Float64 [1; 2; 3; 4]%float).

Definition spread_actual : DataFrame :=
  single "amt" (Float64 [2; 4; 6; 9]%float).

Definition zero_expected : DataFrame :=
  single "amt" (Float64 [0; 0]%float).

Definition zero_actual : DataFrame :=
  single "amt" (Float64 [5; 7]%float).

(** Whether a cell matches a pattern: a string that [re.match] accepts;
    a missing value does not match. *)
Definition cell_matches `{TextFunctions} (pattern : string) (c : cell) : bool :=
  match c with
  | CStr s => re_match pattern s
  | _ => false
  end.

(** Product codes, checked against the literal pattern [A-]. *)
Definition codes_expected : DataFrame :=
  single "code" (Object [Some "A-1"; Some "A-2"; Some "B-3"]).

Definition codes_actual : DataFrame :=
  single "code" (Object [Some "A-1"; Some "X-2"; Some "C-3"]).

(** Frames without a common column. *)
Definition left_only : DataFrame :=
  {| index_len := 3; data := [("a", Float64 [1; 2; 3]%float)] |}.

Definition right_only : DataFrame :=
  {| index_len := 2; data := [("b", Object [Some "x"; None])] |}.

Definition connectors (source target : result DataFrame) (s : strategy)
  : DataValidator :=
  {| source_db := constant_connector source;
     target_db := constant_connector target;
     validation_strategy := s;
     batch_size := 25000%Z |}.

(* ================================================================= *)
(** ** The DuckDB connector ([database/duckdb.py])

    What ibis provides is taken as given: opening a database file,
    which yields a connection or raises, and [connection.sql(q).execute()]
    on an open connection; so is [str.format] with keyword arguments. *)

Record Connection : Type := mkConnection {
  sql_execute : string -> result DataFrame
}.

Class Ibis : Type := {
  duckdb_connect : string -> result Connection;
  str_format : string -> list (string * string) -> result string
}.

(** The instance: its settings (the database file) and
    [self.connection], [None] until [connect] succeeds. *)
Record DuckDBConnector : Type := mkDuckDB {
  file_path : string;
  connection : option Connection
}.

(** [DuckDBConnector.__init__] *)
Definition DuckDBConnector_init (settings_file_path : string)
  : DuckDBConnector :=
  {| file_path := settings_file_path; connection := None |}.

(** [DuckDBConnector.connect]: the result, and the instance after the
    call. *)
Definition DuckDBConnector_connect `{Ibis} (self : DuckDBConnector)
  : result Connection * DuckDBConnector :=
  match duckdb_connect (file_path self) with
  | Ok c => (Ok c, {| file_path := file_path self; connection := Some c |})
  | Raise e =>
      (Raise (DatabaseError ("Failed to connect to DuckDB: " ++ exn_str e)),
       self)
  end.

(** [self.connection.sql]: attribute access on [None] raises. *)
Definition connection_sql (self : DuckDBConnector) : result Connection :=
  match connection self with
  | Some c => Ok c
  | None => Raise (no_attribute "NoneType" "sql")
  end.

(** The body of the [try] block of [execute_query]; [if params:] holds
    for a dict with at least one entry. *)
Definition DuckDBConnector_execute_query_body `{Ibis} (self : DuckDBConnector)
  (query : string) (params : option (list (string * string)))
  : result DataFrame :=
  query <- match params with
           | Some (p :: ps) => str_format query (p :: ps)
           | _ => Ok query
           end ;;
  c <- connection_sql self ;;
  sql_execute c query.

(** [DuckDBConnector.execute_query] *)
Definition DuckDBConnector_execute_query `{Ibis} (self : DuckDBConnector)
  (query : string) (params : option (list (string * string)))
  : result DataFrame :=
  match DuckDBConnector_execute_query_body self query params with
  | Ok df => Ok df
  | Raise e =>
      Raise (DatabaseError ("Failed to execute DuckDB query: " ++ exn_str e))
  end.

(** The instance where a [DatabaseConnector] is expected. *)
Definition as_connector `{Ibis} (self : DuckDBConnector) : DatabaseConnector :=
  {| execute_query := DuckDBConnector_execute_query self |}.

(** An ibis that finds no database file, and formats nothing. *)
Definition no_database : Ibis :=
  {| duckdb_connect := fun path => Raise (ValueError ("cannot open " ++ path));
     str_format := fun query _ => Ok query |}.

(* ================================================================= *)
(** * Properties *)

(** ** The error monad *)

Lemma bind_Ok {A B : Type} (m : result A) (k : A -> result B) (b : B) :
  bind m k = Ok b -> exists a, m = Ok a /\ k a = Ok b.
Proof.
  destruct m as [a | e]; simpl; intros Hk; [eauto | discriminate].
Qed.

Ltac bind_inv H :=
  let a := fresh "v" in
  let Ha := fresh "Hv" in
  apply bind_Ok in H; destruct H as (a & Ha & H).

(** ** Dicts *)

Section DictFacts.
Context {V : Type}.
Implicit Types (d : list (string * V)) (k : string) (v : V).

Lemma dict_get_set_eq k v d : dict_get k (dict_set k v d) = Some v.
Proof.
  induction d as [| [k' v'] d IH]; simpl.
  - now rewrite String.eqb_refl.
  - destruct (String.eqb k k') eqn:E; simpl.
    + now rewrite String.eqb_refl.
    + now rewrite E.
Qed.

Lemma dict_get_set_ne k k' v d :
  k' <> k -> dict_get k' (dict_set k v d) = dict_get k' d.
Proof.
  intros Hne. induction d as [| [k0 v0] d IH]; simpl.
  - destruct (String.eqb k' k) eqn:E; [| reflexivity].
    apply String.eqb_eq in E. contradiction.
  - destruct (String.eqb k k0) eqn:E; simpl.
    + apply String.eqb_eq in E. subst k0.
      destruct (String.eqb k' k) eqn:E'; [| reflexivity].
      apply String.eqb_eq in E'. contradiction.
    + now rewrite IH.
Qed.

Lemma dict_get_keys k d : In k (keys d) <-> dict_get k d <> None.
Proof.
  induction d as [| [k' v'] d IH]; simpl.
  - split; [tauto | congruence].
  - destruct (String.eqb k k') eqn:E.
    + apply String.eqb_eq in E. subst. split; [congruence | auto].
    + apply String.eqb_neq in E. rewrite <- IH. split.
      * intros [Heq | Hin]; [congruence | assumption].
      * auto.
Qed.

Lemma keys_dict_set k k' v d :
  In k' (keys (dict_set k v d)) <-> k' = k \/ In k' (keys d).
Proof.
  rewrite !dict_get_keys.
  destruct (string_dec k' k) as [-> | Hne].
  - rewrite dict_get_set_eq. split; [auto | congruence].
  - rewrite dict_get_set_ne by assumption. tauto.
Qed.

Lemma dict_truthy_set k v d : dict_truthy (dict_set k v d) = true.
Proof.
  destruct d as [| [k' v'] d]; simpl; [reflexivity |].
  now destruct (String.eqb k k').
Qed.

Lemma dict_truthy_nil d : dict_truthy d = false <-> d = [].
Proof. destruct d; simpl; split; congruence. Qed.
End DictFacts.

(** ** The loop over the columns *)

(** After the loop a key holds what the check of that column produced,
    and every other key is as it was. *)
Lemma for_columns_get check names :
  forall acc diffs c,
    for_columns check names acc = Ok diffs ->
    (In c names ->
     exists r, check c = Ok r /\
       dict_get c diffs = match r with
                          | Some d => Some d
                          | None => dict_get c acc
                          end)
    /\ (~ In c names -> dict_get c diffs = dict_get c acc).
Proof.
  induction names as [| n rest IH]; intros acc diffs c Hrun; simpl in Hrun.
  - injection Hrun as <-. split; [intros [] | reflexivity].
  - bind_inv Hrun. rename v into r.
    destruct (IH _ _ c Hrun) as [Hin Hout].
    destruct (in_dec string_dec c rest) as [Hrest | Hrest].
    + split; [intros _ | intros Hn; exfalso; apply Hn; now right].
      destruct (Hin Hrest) as (r' & Hr' & Hget).
      exists r'. split; [assumption |]. rewrite Hget.
      destruct r' as [d' |]; [reflexivity |].
      destruct (string_dec c n) as [-> | Hne].
      * rewrite Hv in Hr'. injection Hr' as ->. reflexivity.
      * destruct r; [now rewrite dict_get_set_ne | reflexivity].
    + rewrite (Hout Hrest). split.
      * intros [<- | Hin']; [| contradiction].
        exists r. split; [assumption |].
        destruct r; [apply dict_get_set_eq | reflexivity].
      * intros Hn.
        destruct r; [| reflexivity].
        apply dict_get_set_ne. intros ->. apply Hn. now left.
Qed.

(** The loop returns as soon as every check does. *)
Lemma for_columns_total check names :
  (forall c, In c names -> exists r, check c = Ok r) ->
  forall acc, exists diffs, for_columns check names acc = Ok diffs.
Proof.
  induction names as [| n rest IH]; intros Hall acc; simpl.
  - eauto.
  - destruct (Hall n (or_introl eq_refl)) as (r & ->). simpl.
    apply IH. intros c Hc. apply Hall. now right.
Qed.

Lemma getitem_Ok_columns df c col : getitem df c = Ok col -> In c (columns df).
Proof.
  unfold getitem, columns. intros Hg. apply dict_get_keys.
  destruct (dict_get c (data df)); [congruence | discriminate].
Qed.

Lemma columns_getitem df c : In c (columns df) -> exists col, getitem df c = Ok col.
Proof.
  unfold getitem, columns. intros Hin. apply dict_get_keys in Hin.
  destruct (dict_get c (data df)); [eauto | congruence].
Qed.

(** ** Masks and row selection *)

Lemma any_nth (mask : list bool) :
  any mask = true <-> exists i, nth_error mask i = Some true.
Proof.
  unfold any. rewrite existsb_exists. split.
  - intros (b & Hin & ->). apply In_nth_error in Hin. exact Hin.
  - intros (i & Hi). exists true. split; [| reflexivity].
    eapply nth_error_In; eassumption.
Qed.

Lemma select_from_In {A : Type} (mask : list bool) :
  forall (xs : list A) k i x,
    In (i, x) (select_from k mask xs) <->
    exists j, i = k + j /\ nth_error mask j = Some true
              /\ nth_error xs j = Some x.
Proof.
  induction mask as [| m mask IH]; intros xs k i x; simpl.
  - split; [intros [] | intros (j & _ & Hj & _)]. now destruct j.
  - destruct xs as [| y ys].
    + split; [intros [] | intros (j & _ & _ & Hj)]. now destruct j.
    + rewrite in_app_iff, IH. split.
      * intros [Hhead | (j & -> & Hm & Hx)].
        -- destruct m; [| destruct Hhead].
           destruct Hhead as [Heq | []]. injection Heq as <- <-.
           exists 0. rewrite Nat.add_0_r. auto.
        -- exists (S j). rewrite Nat.add_succ_r. auto.
      * intros ([| j] & -> & Hm & Hx); simpl in Hm, Hx.
        -- injection Hm as ->. injection Hx as ->. left.
           rewrite Nat.add_0_r. now left.
        -- right. exists j. rewrite Nat.add_succ_r. auto.
Qed.

Lemma select_from_rows {A : Type} (mask : list bool) (xs : list A) i :
  In i (map fst (select_from 0 mask xs)) -> nth_error mask i = Some true.
Proof.
  rewrite in_map_iff. intros ([i' x] & Hfst & Hin). simpl in Hfst. subst i'.
  apply select_from_In in Hin. destruct Hin as (j & -> & Hm & _). exact Hm.
Qed.

Lemma align_length {A B : Type} (da : A) (db : B) xs :
  forall ys, List.length (align da db xs ys)
             = Nat.max (List.length xs) (List.length ys).
Proof.
  induction xs as [| x xs IH]; intros ys; simpl.
  - now rewrite length_map.
  - destruct ys as [| y ys]; simpl; rewrite IH; simpl; lia.
Qed.

Lemma align_nth {A B : Type} (da : A) (db : B) xs :
  forall ys i x y,
    nth_error xs i = Some x -> nth_error ys i = Some y ->
    nth_error (align da db xs ys) i = Some (x, y).
Proof.
  induction xs as [| x0 xs IH]; intros ys i x y Hx Hy.
  - now destruct i.
  - destruct ys as [| y0 ys]; [now destruct i |].
    destruct i as [| i]; simpl in *.
    + congruence.
    + now apply IH.
Qed.

Lemma loc_to_dict_Ok mask c :
  series_len c <= List.length mask ->
  loc_to_dict mask c = Ok (select_from 0 mask (cells c)).
Proof.
  intros Hle. unfold loc_to_dict.
  apply Nat.leb_le in Hle. now rewrite Hle.
Qed.

(** ** Comparisons of binary64 floats *)



(** ** Numeric strategy *)

Section Numeric.
Context `{Reductions} `{TextFunctions}.
Variables (expected_data actual_data : DataFrame) (tolerance : float).


(** The check of a float64 column against a float64 column. *)
Lemma NumericValidation_check_floats column xs ys :
  getitem expected_data column = Ok (Float64 xs) ->
  getitem actual_data column = Ok (Float64 ys) ->
  NumericValidation_check expected_data actual_data tolerance column
  = Ok (if any (numeric_mask tolerance xs ys)
        then Some (ValueDiff
                     (select_from 0 (numeric_mask tolerance xs ys) (map CFloat xs))
                     (select_from 0 (numeric_mask tolerance xs ys) (map CFloat ys)))
        else None).
Proof.
  intros He Ha. unfold NumericValidation_check.
  rewrite He. cbn [bind is_numeric_dtype]. rewrite Ha.
  cbn [bind series_sub_abs]. fold (numeric_mask tolerance xs ys).
  destruct (any (numeric_mask tolerance xs ys)); [| reflexivity].
  assert (Hlen : List.length (numeric_mask tolerance xs ys)
                 = Nat.max (List.length xs) (List.length ys)).
  { unfold numeric_mask. now rewrite !length_map, align_length. }
  rewrite !loc_to_dict_Ok; [reflexivity | |];
    unfold series_len; cbn [cells]; rewrite length_map, Hlen; lia.
Qed.
End Numeric.

(** ** Outcomes of the leaf strategies *)

Section Leaves.
Context `{Reductions} `{TextFunctions}.
Variables expected_data actual_data : DataFrame.

Lemma leaf_validate_Ok s out :
  leaf_validate expected_data actual_data s = Ok out ->
  exists diffs,
    for_columns (column_check expected_data actual_data s)
                (columns expected_data) [] = Ok diffs
    /\ out = report diffs.
Proof.
  unfold leaf_validate. intros Hrun. bind_inv Hrun.
  injection Hrun as <-. eauto.
Qed.

(** What a leaf strategy stores under a column of the expected frame
    is the detail its check of that column produced. *)
Lemma leaf_validate_get s out column :
  leaf_validate expected_data actual_data s = Ok out ->
  In column (columns expected_data) ->
  exists r,
    column_check expected_data actual_data s column = Ok r
    /\ dict_get column (differences out) = r.
Proof.
  intros Hrun Hin. apply leaf_validate_Ok in Hrun.
  destruct Hrun as (diffs & Hloop & ->).
  destruct (for_columns_get _ _ _ _ column Hloop) as [Hget _].
  destruct (Hget Hin) as (r & Hr & Hd). exists r. split; [assumption |].
  cbn [differences report]. rewrite Hd. now destruct r.
Qed.

(** Keys of a leaf outcome are columns of the expected frame. *)
Lemma leaf_validate_keys s out column :
  leaf_validate expected_data actual_data s = Ok out ->
  In column (keys (differences out)) -> In column (columns expected_data).
Proof.
  intros Hrun Hkey. apply leaf_validate_Ok in Hrun.
  destruct Hrun as (diffs & Hloop & ->). cbn [differences report] in Hkey.
  destruct (in_dec string_dec column (columns expected_data)) as [| Hn];
    [assumption | exfalso].
  destruct (for_columns_get _ _ _ _ column Hloop) as [_ Hout].
  apply dict_get_keys in Hkey. now rewrite (Hout Hn) in Hkey.
Qed.
End Leaves.



(** Scenario A: the same frames pass at tolerance 1e-3. *)
Example numeric_scenario_A `{Reductions} `{TextFunctions} :
  validate scenario_expected scenario_actual (NumericValidation 1e-3)
  = Ok {| status := Pass; differences := [] |}.
Proof. reflexivity. Qed.

(** The numeric strategy returns an outcome whenever every float64
    column of the expected frame is a float64 column of the actual one. *)
Lemma numeric_validate_returns `{Reductions} `{TextFunctions}
  (tolerance : float) (expected_data actual_data : DataFrame) :
  (forall column xs, getitem expected_data column = Ok (Float64 xs) ->
                     exists ys, getitem actual_data column = Ok (Float64 ys)) ->
  exists out,
    validate expected_data actual_data (NumericValidation tolerance) = Ok out.
Proof.
  intros Hcols. cbn [validate]. unfold leaf_validate.
  destruct (for_columns_total
              (column_check expected_data actual_data
                            (NumericValidation tolerance))
              (columns expected_data)) with (acc := @nil (string * detail))
    as (diffs & ->); [| cbn; eauto].
  intros c Hc. destruct (columns_getitem _ _ Hc) as (col & He).
  cbn [column_check].
  destruct col as [xs | xs | tz xs].
  - destruct (Hcols _ _ He) as (ys & Ha).
    rewrite (NumericValidation_check_floats _ _ _ _ _ _ He Ha). eauto.
  - unfold NumericValidation_check. rewrite He. cbn. eauto.
  - unfold NumericValidation_check. rewrite He. cbn. eauto.
Qed.

(** ** Composite strategy *)

Lemma status_eqb_Fail s : status_eqb s Fail = true <-> s = Fail.
Proof. destruct s; simpl; split; congruence. Qed.

Section Composite.
Context `{Reductions} `{TextFunctions}.
Variables expected_data actual_data : DataFrame.

Lemma validate_composite strategies :
  validate expected_data actual_data (CompositeValidation strategies)
  = composite_loop (validate expected_data actual_data) strategies [] Pass.
Proof.
  cbn [validate].
  generalize (@nil (string * detail)) as acc, Pass as st.
  induction strategies as [| s rest IH]; intros acc st; simpl; [reflexivity |].
  destruct (validate expected_data actual_data s) as [r | e]; simpl;
    [| reflexivity].
  destruct (status_eqb (status r) Fail); apply IH.
Qed.

Lemma validate_leaf s :
  (forall l, s <> CompositeValidation l) ->
  validate expected_data actual_data s
  = leaf_validate expected_data actual_data s.
Proof. destruct s; intros Hs; try reflexivity. now elim (Hs strategies). Qed.

(** The loop runs [run] on every strategy of the list, turns the status
    to fail exactly when one of them fails, and adds exactly the class
    names of those that fail to the keys. *)
Lemma composite_loop_spec (run : strategy -> result outcome) strategies :
  forall acc st out,
    composite_loop run strategies acc st = Ok out ->
    Forall (fun s => exists o, run s = Ok o) strategies
    /\ (status out = Fail <->
        st = Fail \/
        exists s o, In s strategies /\ run s = Ok o /\ status o = Fail)
    /\ (forall k, In k (keys (differences out)) <->
          In k (keys acc) \/
          exists s o, In s strategies /\ run s = Ok o /\ status o = Fail
                      /\ class_name s = k).
Proof.
  induction strategies as [| s rest IH]; intros acc st out Hrun;
    simpl in Hrun.
  - injection Hrun as <-. cbn [status differences].
    split; [constructor |]. split.
    + split; [auto | intros [Hst | (s & o & [] & _)]; assumption].
    + intros k. split; [auto | intros [Hk | (s & o & [] & _)]; assumption].
  - bind_inv Hrun. rename v into r.
    destruct (status_eqb (status r) Fail) eqn:Est.
    + apply status_eqb_Fail in Est.
      destruct (IH _ _ _ Hrun) as (Hall & Hst & Hkeys).
      split; [constructor; eauto |]. split.
      * split; [intros _ | intros _; apply Hst; now left].
        right. exists s, r. simpl. auto.
      * intros k. rewrite Hkeys, keys_dict_set. split.
        -- intros [[-> | Hk] | (s' & o & Hin & Ho & Hf & Hn)].
           ++ right. exists s, r. simpl. auto.
           ++ now left.
           ++ right. exists s', o. simpl. auto.
        -- intros [Hk | (s' & o & [<- | Hin] & Ho & Hf & Hn)].
           ++ left. now right.
           ++ left. left. congruence.
           ++ right. exists s', o. auto.
    + assert (Hpass : status r <> Fail)
        by (intros Hf; apply status_eqb_Fail in Hf; congruence).
      destruct (IH _ _ _ Hrun) as (Hall & Hst & Hkeys).
      split; [constructor; eauto |]. split.
      * rewrite Hst. split.
        -- intros [Hs | (s' & o & Hin & Ho & Hf)]; [now left | right].
           exists s', o. simpl. auto.
        -- intros [Hs | (s' & o & [<- | Hin] & Ho & Hf)]; [now left | |].
           ++ rewrite Hv in Ho. injection Ho as <-. contradiction.
           ++ right. exists s', o. auto.
      * intros k. rewrite Hkeys. split.
        -- intros [Hk | (s' & o & Hin & Ho & Hf & Hn)]; [now left | right].
           exists s', o. simpl. auto.
        -- intros [Hk | (s' & o & [<- | Hin] & Ho & Hf & Hn)]; [now left | |].
           ++ rewrite Hv in Ho. injection Ho as <-. contradiction.
           ++ right. exists s', o. auto.
Qed.

Lemma composite_loop_total (run : strategy -> result outcome) strategies :
  Forall (fun s => exists o, run s = Ok o) strategies ->
  forall acc st, exists out, composite_loop run strategies acc st = Ok out.
Proof.
  induction 1 as [| s rest (o & Ho) _ IH]; intros acc st; simpl.
  - eauto.
  - rewrite Ho. simpl. destruct (status_eqb (status o) Fail); apply IH.
Qed.

(** The status of a composite outcome is the truth value of its
    differences. *)
Lemma composite_loop_status (run : strategy -> result outcome) strategies :
  forall acc st out,
    composite_loop run strategies acc st = Ok out ->
    st = (if dict_truthy acc then Fail else Pass) ->
    status out = (if dict_truthy (differences out) then Fail else Pass).
Proof.
  induction strategies as [| s rest IH]; intros acc st out Hrun Hinv;
    simpl in Hrun.
  - now injection Hrun as <-.
  - bind_inv Hrun.
    destruct (status_eqb (status v) Fail).
    + apply (IH _ _ _ Hrun). now rewrite dict_truthy_set.
    + apply (IH _ _ _ Hrun Hinv).
Qed.
End Composite.

(** C2. Whatever the strategy of the family and the two frames, the
    status of a returned outcome is fail exactly when its differences
    are non-empty: the status is the truth value of the differences. *)
Theorem status_fail_iff_differences_nonempty
  `{Reductions} `{TextFunctions}
  (s : strategy) (expected_data actual_data : DataFrame) (out : outcome) :
  validate expected_data actual_data s = Ok out ->
  status out = (if dict_truthy (differences out) then Fail else Pass)
  /\ (status out = Fail <-> differences out <> []).
Proof.
  intros Hrun.
  assert (Hstatus :
            status out = if dict_truthy (differences out) then Fail else Pass).
  { destruct s;
      try (cbn [validate] in Hrun; apply leaf_validate_Ok in Hrun;
           destruct Hrun as (diffs & _ & ->); reflexivity).
    rewrite validate_composite in Hrun.
    now apply (composite_loop_status _ _ _ _ _ Hrun). }
  split; [exact Hstatus |]. rewrite Hstatus.
  destruct (differences out); simpl; split; congruence.
Qed.

Lemma status_fail_iff_differences_nonempty_witness :
  exists out,
    @validate reference_reductions literal_text
      scenario_C_expected scenario_C_actual
      (CompositeValidation [NumericValidation 0; CategoricalValidation]) = Ok out
    /\ (status out = Fail <-> differences out <> [])
    /\ status out = Fail.
Proof.
  eexists. split; [reflexivity |]. split; [| reflexivity].
  apply (@status_fail_iff_differences_nonempty
           reference_reductions literal_text
           (CompositeValidation [NumericValidation 0; CategoricalValidation])
           scenario_C_expected scenario_C_actual _ eq_refl).
Defined.

(** C3, as the code has it. A composite returns an outcome exactly when
    every sub-strategy of its list returns one, so none is skipped after
    a failure; the outcome's status is fail exactly when some
    sub-strategy's status is fail; and a key is in the outcome's
    differences exactly when it is the class name of a sub-strategy
    whose status is fail.  Hence the key of a passing sub-strategy is
    absent unless a sub-strategy of the same class failed. *)
Theorem composite_runs_all_and_keys_failed_classes
  `{Reductions} `{TextFunctions}
  (strategies : list strategy) (expected_data actual_data : DataFrame) :
  ((exists out, validate expected_data actual_data
                  (CompositeValidation strategies) = Ok out) <->
   Forall (fun s => exists o, validate expected_data actual_data s = Ok o)
          strategies)
  /\ forall out,
       validate expected_data actual_data (CompositeValidation strategies)
       = Ok out ->
       (status out = Fail <->
        exists s, In s strategies /\ failed expected_data actual_data s)
       /\ (forall k, In k (keys (differences out)) <->
             exists s, In s strategies /\ failed expected_data actual_data s
                       /\ class_name s = k)
       /\ (forall s, In s strategies ->
             (forall s', In s' strategies ->
                         failed expected_data actual_data s' ->
                         class_name s' <> class_name s) ->
             ~ In (class_name s) (keys (differences out))).
Proof.
  unfold failed. split.
  - rewrite validate_composite. split.
    + intros (out & Hrun).
      now destruct (composite_loop_spec _ _ _ _ _ Hrun) as (Hall & _).
    + intros Hall. now apply composite_loop_total.
  - intros out Hrun. rewrite validate_composite in Hrun.
    destruct (composite_loop_spec _ _ _ _ _ Hrun) as (_ & Hst & Hkeys).
    assert (Hk : forall k, In k (keys (differences out)) <->
                   exists s, In s strategies /\
                     (exists o, validate expected_data actual_data s = Ok o
                                /\ status o = Fail) /\ class_name s = k).
    { intros k. rewrite Hkeys. split.
      - intros [[] | (s & o & Hin & Ho & Hf & Hn)]. eauto 8.
      - intros (s & Hin & (o & Ho & Hf) & Hn). right. eauto 8. }
    split; [| split].
    + rewrite Hst. split.
      * intros [Hd | (s & o & Hin & Ho & Hf)]; [discriminate | eauto 8].
      * intros (s & Hin & o & Ho & Hf). right. eauto 8.
    + exact Hk.
    + intros s Hin Hothers Hkey. apply Hk in Hkey.
      destruct Hkey as (s' & Hin' & Hfail & Hn).
      exact (Hothers s' Hin' Hfail Hn).
Qed.

(** Scenario C: numeric passes, categorical fails; the only key is
    [CategoricalValidation]. *)
Lemma composite_runs_all_and_keys_failed_classes_witness :
  exists out,
    @validate reference_reductions literal_text
      scenario_C_expected scenario_C_actual
      (CompositeValidation [NumericValidation 0; CategoricalValidation]) = Ok out
    /\ keys (differences out) = ["CategoricalValidation"]
    /\ ~ In "NumericValidation" (keys (differences out)).
Proof.
  eexists. split; [reflexivity |]. split; [reflexivity |].
  refine (proj2 (proj2 (proj2
            (@composite_runs_all_and_keys_failed_classes
               reference_reductions literal_text
               [NumericValidation 0; CategoricalValidation]
               scenario_C_expected scenario_C_actual) _ eq_refl))
            (NumericValidation 0) (or_introl eq_refl) _).
  intros s' [<- | [<- | []]] (o & Ho & Hf).
  - injection Ho as <-. discriminate Hf.
  - discriminate.
Defined.

(** C3 as stated fails: with two numeric sub-strategies of tolerance 0
    and 1 on values half apart, the second passes and yet its class name
    is a key of the composite's differences. *)
Lemma composite_key_of_passing_sub_strategy_present :
  ~ (forall (strategies : list strategy) (expected_data actual_data : DataFrame)
            (out : outcome) (s : strategy) (o : outcome),
        @validate reference_reductions literal_text expected_data actual_data
          (CompositeValidation strategies) = Ok out ->
        In s strategies ->
        @validate reference_reductions literal_text expected_data actual_data s
        = Ok o ->
        status o = Pass ->
        ~ In (class_name s) (keys (differences out))).
Proof.
  intros Hclaim.
  apply (Hclaim [NumericValidation 0; NumericValidation 1]
                half_apart_expected half_apart_actual _
                (NumericValidation 1) _ eq_refl
                (or_intror (or_introl eq_refl)) eq_refl eq_refl).
  now left.
Qed.

(** ** Columns named by an outcome *)

Lemma strategy_rect_nested (P : strategy -> Prop) :
  (forall s, (forall l, s <> CompositeValidation l) -> P s) ->
  (forall l, Forall P l -> P (CompositeValidation l)) ->
  forall s, P s.
Proof.
  intros Hleaf Hcomp.
  fix IH 1. intros s.
  destruct s as [t | | tz d | f | t | ps | l];
    try (apply Hleaf; intros l'; discriminate).
  apply Hcomp. induction l as [| s rest IHl]; constructor.
  - apply IH.
  - exact IHl.
Qed.


Lemma Forall_dict_set {V : Type} (P : string * V -> Prop) k v d :
  P (k, v) -> Forall P d -> Forall P (dict_set k v d).
Proof.
  intros Hnew. induction 1 as [| [k' v'] d Hhd Htl IH]; simpl.
  - auto.
  - destruct (String.eqb k k'); constructor; auto.
Qed.

Lemma for_columns_Forall (P : string * detail -> Prop) check names :
  (forall c d, In c names -> check c = Ok (Some d) -> P (c, d)) ->
  forall acc diffs,
    Forall P acc -> for_columns check names acc = Ok diffs -> Forall P diffs.
Proof.
  induction names as [| n rest IH]; intros Hcheck acc diffs Hacc Hrun;
    simpl in Hrun.
  - now injection Hrun as <-.
  - bind_inv Hrun.
    refine (IH (fun c d Hc => Hcheck c d (or_intror Hc)) _ _ _ Hrun).
    destruct v as [d |]; [| exact Hacc].
    apply Forall_dict_set; [| exact Hacc].
    apply Hcheck; [now left | exact Hv].
Qed.

Ltac crunch_check H :=
  repeat first
    [ discriminate H
    | progress (injection H as H)
    | bind_inv H
    | match type of H with
      | context [if ?b then _ else _] => destruct b
      | context [match ?x with _ => _ end] => destruct x
      end ].





(** ** The orchestrator *)

Lemma intersection_In a b c :
  In c (intersection a b) <-> In c a /\ In c b.
Proof.
  unfold intersection. rewrite filter_In, nodup_In, existsb_exists.
  split.
  - intros (Ha & x & Hx & Heq). apply String.eqb_eq in Heq. subst x. auto.
  - intros (Ha & Hb). split; [exact Ha |]. exists c.
    split; [exact Hb | apply String.eqb_refl].
Qed.

Lemma select_columns_keys df names :
  forall cs, select_columns df names = Ok cs -> keys cs = names.
Proof.
  induction names as [| n rest IH]; intros cs Hs; simpl in Hs.
  - now injection Hs as <-.
  - bind_inv Hs. bind_inv Hs. injection Hs as <-.
    simpl. f_equal. now apply IH.
Qed.

Lemma project_columns df names df' :
  project df names = Ok df' ->
  columns df' = names /\ len df' = len df.
Proof.
  unfold project. intros Hp. bind_inv Hp. injection Hp as <-.
  split; [| reflexivity]. exact (select_columns_keys _ _ _ Hv).
Qed.

(** [validate_query] returns a summary exactly when its body does. *)
Lemma validate_query_Ok `{Reductions} `{TextFunctions}
  self source_query target_query params s :
  validate_query self source_query target_query params = Ok s <->
  validate_query_body self source_query target_query params = Ok s.
Proof.
  unfold validate_query.
  destruct (validate_query_body self source_query target_query params);
    [tauto |].
  unfold raise_ValidationError. split; [| discriminate].
  destruct (load_name validator_globals "ValidationError");
    discriminate.
Qed.



(** ** Null strategy *)

Lemma null_flags_nth flag values i x :
  nth_error values i = Some x ->
  nth_error (null_flags flag values) i = Some (null_like flag x).
Proof.
  intros Hx. unfold null_flags, null_like. destruct flag.
  - rewrite nth_error_map.
    assert (Hc : nth_error
                   (combine (map isna values)
                      (map (fun x => eq_str EmptyString x
                                     || eq_str "null/empty" x) values)) i
                 = Some (isna x, eq_str EmptyString x || eq_str "null/empty" x)).
    { revert i Hx. induction values as [| v vs IH]; intros [| i] Hx;
        simpl in *; try discriminate.
      - now injection Hx as ->.
      - now apply IH. }
    rewrite Hc. reflexivity.
  - rewrite nth_error_map, Hx. simpl. now destruct (isna x).
Qed.

Lemma series_ne_nth {A : Type} (ne : A -> A -> bool) xs ys mask i x y :
  series_ne ne xs ys = Ok mask ->
  nth_error xs i = Some x -> nth_error ys i = Some y ->
  nth_error mask i = Some (ne x y).
Proof.
  unfold series_ne. destruct (Nat.eqb _ _); [| discriminate].
  intros Hm. injection Hm as <-. rewrite nth_error_map.
  revert ys i. induction xs as [| x0 xs IH]; intros [| y0 ys] [| i] Hx Hy;
    simpl in *; try discriminate.
  - injection Hx as ->. now injection Hy as ->.
  - now apply IH.
Qed.

Lemma true_rows_In mask i :
  In i (true_rows mask) <-> nth_error mask i = Some true.
Proof.
  unfold true_rows. split.
  - apply select_from_rows.
  - intros Hm. apply in_map_iff. exists (i, true). split; [reflexivity |].
    apply select_from_In. exists i. auto.
Qed.

(** C6. Null strategy, a column present on both sides, a row holding the
    empty string on one side and a missing value on the other.  With
    [treat_empty_as_null] set both cells are null-like and the row is
    nowhere in the differences of the column; with the flag unset the
    column is in the differences and the row is among its
    [rows_with_differences]. *)
Theorem null_empty_string_matches_missing_iff_flag
  `{Reductions} `{TextFunctions}
  (treat_empty_as_null : bool) (expected_data actual_data : DataFrame)
  (e a : column) (column : string) (out : outcome)
  (i : nat) (x y : cell) :
  getitem expected_data column = Ok e ->
  getitem actual_data column = Ok a ->
  validate expected_data actual_data (NullValidation treat_empty_as_null)
  = Ok out ->
  nth_error (cells e) i = Some x ->
  nth_error (cells a) i = Some y ->
  (x = CStr EmptyString /\ isna y = true)
  \/ (isna x = true /\ y = CStr EmptyString) ->
  (treat_empty_as_null = true ->
   null_like true x = true /\ null_like true y = true
   /\ row_absent out column i)
  /\ (treat_empty_as_null = false -> null_row_reported out column i).
Proof.
  intros He Ha Hrun Hx Hy Hcells. cbn [validate] in Hrun.
  destruct (leaf_validate_get _ _ _ _ column Hrun
              (getitem_Ok_columns _ _ _ He)) as (r & Hr & Hget).
  cbn [column_check] in Hr. unfold NullValidation_check in Hr.
  rewrite He in Hr. cbn [bind] in Hr. rewrite Ha in Hr. cbn [bind] in Hr.
  bind_inv Hr. rename v into mask, Hv into Hmask.
  pose proof (series_ne_nth _ _ _ _ _ _ _ Hmask
                (null_flags_nth treat_empty_as_null _ _ _ Hx)
                (null_flags_nth treat_empty_as_null _ _ _ Hy)) as Hrow.
  split; intros ->.
  - assert (Hlike : null_like true x = true /\ null_like true y = true).
    { destruct Hcells as [(-> & Hn) | (Hn & ->)]; unfold null_like;
        rewrite Hn; split; reflexivity. }
    destruct Hlike as (Hlx & Hly). split; [exact Hlx |]. split; [exact Hly |].
    rewrite Hlx, Hly in Hrow. cbn [xorb] in Hrow.
    intros d Hd. subst r. rewrite Hd in Hr.
    destruct (any mask); [| discriminate Hr]. injection Hr as <-.
    cbn [detail_rows]. rewrite true_rows_In. congruence.
  - assert (Hne : xorb (null_like false x) (null_like false y) = true).
    { destruct Hcells as [(-> & Hn) | (Hn & ->)]; unfold null_like;
        rewrite Hn; reflexivity. }
    rewrite Hne in Hrow.
    assert (Hany : any mask = true) by (apply any_nth; eauto).
    rewrite Hany in Hr. injection Hr as Hr. subst r.
    unfold null_row_reported. eexists _, _, _, _.
    split; [exact Hget |]. now apply true_rows_In.
Qed.

Lemma null_empty_string_matches_missing_iff_flag_witness :
  (exists out,
      @validate reference_reductions literal_text
        empty_vs_missing_expected empty_vs_missing_actual
        (NullValidation true) = Ok out
      /\ status out = Pass /\ row_absent out "note" 1)
  /\ (exists out,
         @validate reference_reductions literal_text
           empty_vs_missing_expected empty_vs_missing_actual
           (NullValidation false) = Ok out
         /\ status out = Fail /\ null_row_reported out "note" 1).
Proof.
  split; eexists; (split; [reflexivity |]); (split; [reflexivity |]).
  - apply (@null_empty_string_matches_missing_iff_flag
             reference_reductions literal_text true
             empty_vs_missing_expected empty_vs_missing_actual
             _ _ "note" _ 1 (CStr EmptyString) CNone
             eq_refl eq_refl eq_refl eq_refl eq_refl
             (or_introl (conj eq_refl eq_refl))).
    reflexivity.
  - apply (@null_empty_string_matches_missing_iff_flag
             reference_reductions literal_text false
             empty_vs_missing_expected empty_vs_missing_actual
             _ _ "note" _ 1 (CStr EmptyString) CNone
             eq_refl eq_refl eq_refl eq_refl eq_refl
             (or_introl (conj eq_refl eq_refl))).
    reflexivity.
Defined.

(** ** Distribution strategy *)

Lemma stat_loop_get threshold_pct actual_stats expected_stats :
  NoDup (keys expected_stats) ->
  forall acc res stat,
    stat_loop threshold_pct expected_stats actual_stats acc = Ok res ->
    (forall ev, In (stat, ev) expected_stats ->
       exists av, dict_get stat actual_stats = Some av /\
         dict_get stat res
         = if flags threshold_pct ev av
           then Some (mkStat ev av (percentage_difference ev av))
           else dict_get stat acc)
    /\ (~ In stat (keys expected_stats) ->
        dict_get stat res = dict_get stat acc).
Proof.
  induction expected_stats as [| [n ev0] rest IH]; intros Hnd acc res stat Hrun;
    simpl in Hrun.
  - injection Hrun as <-. split; [intros ev [] | reflexivity].
  - inversion Hnd as [| ? ? Hnotin Hnd']; subst.
    destruct (dict_get n actual_stats) as [av0 |] eqn:Hav; [| discriminate].
    destruct (IH Hnd' _ _ stat Hrun) as [Hin Hout].
    assert (Hstep : forall k, k <> n ->
              dict_get k
                (if negb (PrimFloat.eqb ev0 0)
                 then if PrimFloat.ltb threshold_pct
                           (percentage_difference ev0 av0)
                      then dict_set n
                             (mkStat ev0 av0 (percentage_difference ev0 av0))
                             acc
                      else acc
                 else acc)
              = dict_get k acc).
    { intros k Hk. destruct (negb _); [| reflexivity].
      destruct (PrimFloat.ltb _ _); [| reflexivity].
      now apply dict_get_set_ne. }
    split.
    + intros ev [Heq | Hrest].
      * injection Heq as -> ->. exists av0. split; [exact Hav |].
        rewrite (Hout Hnotin). unfold flags.
        destruct (negb (PrimFloat.eqb ev 0)); [| reflexivity].
        destruct (PrimFloat.ltb _ _); [apply dict_get_set_eq | reflexivity].
      * destruct (Hin ev Hrest) as (av & Ha & Hg). exists av.
        split; [exact Ha |]. rewrite Hg.
        destruct (flags threshold_pct ev av); [reflexivity |].
        apply Hstep. intros ->. apply Hnotin.
        apply (in_map fst) in Hrest. exact Hrest.
    + intros Hn. rewrite Hout by (intros Hk; apply Hn; now right).
      apply Hstep. intros ->. apply Hn. now left.
Qed.

(** A statistic whose expected value is zero is never flagged. *)
Lemma flags_zero_expected threshold_pct expected_value actual_value :
  PrimFloat.eqb expected_value 0 = true ->
  flags threshold_pct expected_value actual_value = false.
Proof. intros Hz. unfold flags. now rewrite Hz. Qed.

(** C5, the divergence. Every value of the expected column is -10 and
    every value of the actual column -20: mean, median, minimum and
    maximum are all twice as far from zero, a relative difference of
    100 percent, above the threshold of 5.  The code divides by the
    signed expected value, finds -100 percent, and passes. *)
Theorem distribution_negative_expected_never_flagged :
  @validate reference_reductions literal_text
    negative_expected negative_actual (DistributionValidation 5)
  = Ok {| status := Pass; differences := [] |}
  /\ @describe reference_reductions (Float64 [-10; -10]%float)
     = Ok [("mean", -10); ("median", -10); ("std", 0); ("min", -10);
           ("max", -10)]%float
  /\ @describe reference_reductions (Float64 [-20; -20]%float)
     = Ok [("mean", -20); ("median", -20); ("std", 0); ("min", -20);
           ("max", -20)]%float
  /\ percentage_difference (-10) (-20) = (-100)%float
  /\ relative_pct_difference (-10) (-20) = 100%float
  /\ PrimFloat.ltb 5 (relative_pct_difference (-10) (-20)) = true
  /\ flags 5 (-10) (-20) = false.
Proof. repeat split; reflexivity. Qed.

(** On a positive expected value the two readings agree, here at 10
    against 20. *)
Example distribution_positive_expected_flagged :
  percentage_difference 10 20 = relative_pct_difference 10 20
  /\ flags 5 10 20 = true.
Proof. split; reflexivity. Qed.

(** ** DateTime strategy *)

(** The check of a timestamp column never yields a detail: building one
    ends in [total_seconds().to_dict()], which raises. *)
Lemma DateTimeValidation_check_no_detail `{TextFunctions}
  (expected_data actual_data : DataFrame) tz allowed column d :
  DateTimeValidation_check expected_data actual_data tz allowed column
  <> Ok (Some d).
Proof.
  intros Hc. unfold DateTimeValidation_check, index_to_dict in Hc.
  crunch_check Hc.
Qed.

(** So every outcome the strategy returns is a pass without
    differences. *)
Lemma datetime_outcome_always_pass `{Reductions} `{TextFunctions}
  (expected_data actual_data : DataFrame) tz allowed out :
  validate expected_data actual_data (DateTimeValidation tz allowed) = Ok out ->
  out = {| status := Pass; differences := [] |}.
Proof.
  cbn [validate]. intros Hrun. apply leaf_validate_Ok in Hrun.
  destruct Hrun as (diffs & Hloop & ->).
  assert (Hall : Forall (fun _ => False) diffs).
  { refine (for_columns_Forall _ _ _ _ _ _ (Forall_nil _) Hloop).
    intros c d _ Hc. cbn [column_check] in Hc.
    exact (DateTimeValidation_check_no_detail _ _ _ _ _ _ Hc). }
  destruct diffs as [| p rest]; [reflexivity |].
  inversion Hall as [| ? ? Hfalse _]. destruct Hfalse.
Qed.

(** C7, the divergence. Two timestamps five seconds apart with no
    difference allowed: the row mismatches, and instead of an outcome
    that reports it the call raises AttributeError, on either setting
    of [timezone_aware]. *)
Theorem datetime_mismatch_raises_AttributeError :
  @validate reference_reductions literal_text
    instant_expected instant_actual (DateTimeValidation_init true 0)
  = Raise (AttributeError "'Series' object has no attribute 'total_seconds'")
  /\ @validate reference_reductions literal_text
       instant_expected instant_actual (DateTimeValidation_init false 0)
     = Raise (AttributeError "'Index' object has no attribute 'to_dict'")
  /\ @validate reference_reductions literal_text
       instant_expected instant_actual (DateTimeValidation_init true 5)
     = Ok {| status := Pass; differences := [] |}.
Proof. repeat split; reflexivity. Qed.

(** ** Errors of the orchestrator *)

(** Whatever the body raises, [validate_query] raises NameError: the
    handler names [ValidationError], which [validator.py] never binds. *)
Lemma validate_query_raises_NameError `{Reductions} `{TextFunctions}
  self source_query target_query params e :
  validate_query_body self source_query target_query params = Raise e ->
  validate_query self source_query target_query params
  = Raise (NameError "ValidationError").
Proof. unfold validate_query. now intros ->. Qed.

(** C8, the divergence. The source connector fails with a
    DatabaseError: the call returns no summary, but what it raises is
    NameError, not the validation error wrapping that message. *)
Theorem validate_query_source_failure_raises_NameError :
  @validate_query reference_reductions literal_text failing_source_validator
    "SELECT * FROM orders" "SELECT * FROM orders" None
  = Raise (NameError "ValidationError")
  /\ name_bound validator_globals "ValidationError" = false
  /\ @validate_query_body reference_reductions literal_text
       failing_source_validator
       "SELECT * FROM orders" "SELECT * FROM orders" None
     = Raise (DatabaseError "Failed to execute DuckDB query: boom")
  /\ @raise_ValidationError summary ("ValidationError" :: validator_globals)
       ("Validation failed: "
        ++ exn_str (DatabaseError "Failed to execute DuckDB query: boom"))
     = Raise (ValidationError
                "Validation failed: Failed to execute DuckDB query: boom").
Proof. repeat split; reflexivity. Qed.

(** ** Construction of the pattern strategy *)

Lemma compile_patterns_unbound globals items :
  name_bound globals "re" = false ->
  items <> [] ->
  compile_patterns globals items = Raise (NameError "re").
Proof.
  intros Hre Hne. destruct items as [| [k v] rest]; [congruence |].
  simpl. unfold load_name. now rewrite Hre.
Qed.

(** C9. With at least one entry in [patterns] the constructor raises
    NameError for [re], so constructing and then validating raises it
    too, on any two frames; [re] is bound neither by the module nor by
    the builtins, and the same holds of [List], which the signature of
    the composite constructor names. *)
Theorem pattern_constructor_raises_NameError
  `{Reductions} `{TextFunctions}
  (patterns : list (string * string)) :
  patterns <> [] ->
  PatternValidation_init patterns = Raise (NameError "re")
  /\ (forall expected_data actual_data,
        construct_and_validate patterns expected_data actual_data
        = Raise (NameError "re"))
  /\ In "re" PatternValidation_init_body_names
  /\ name_bound strategies_globals "re" = false
  /\ In "List" CompositeValidation_init_annotation_names
  /\ name_bound strategies_globals "List" = false.
Proof.
  intros Hne.
  assert (Hinit : PatternValidation_init patterns = Raise (NameError "re")).
  { unfold PatternValidation_init.
    now rewrite (compile_patterns_unbound strategies_globals _ eq_refl Hne). }
  split; [exact Hinit |]. split.
  - intros e a. unfold construct_and_validate. now rewrite Hinit.
  - repeat split; simpl; auto.
Qed.

Lemma pattern_constructor_raises_NameError_witness :
  PatternValidation_init [("email", "^\S+@\S+$")] = Raise (NameError "re")
  /\ @construct_and_validate reference_reductions literal_text
       [("email", "^\S+@\S+$")]
       (single "email" (Object [Some "a@b"]))
       (single "email" (Object [Some "not-an-email"]))
     = Raise (NameError "re").
Proof.
  destruct (@pattern_constructor_raises_NameError
              reference_reductions literal_text
              [("email", "^\S+@\S+$")] ltac:(discriminate))
    as (Hinit & Hrun & _).
  split; [exact Hinit | apply Hrun].
Defined.

(** Without entries the constructor succeeds, and the strategy it
    builds passes everything. *)
Example pattern_constructor_empty : PatternValidation_init [] = Ok (PatternValidation []).
Proof. reflexivity. Qed.

(** With eager evaluation of annotations the definition of the
    composite constructor itself raises, for [List]. *)
Example composite_signature_eager :
  define_function true strategies_globals
    CompositeValidation_init_annotation_names = Raise (NameError "List")
  /\ define_function false strategies_globals
       CompositeValidation_init_annotation_names = Ok tt.
Proof. split; reflexivity. Qed.

(** On two float64 columns, a statistic is in the outcome exactly when
    the rule of the inner loop flags it. *)
Lemma distribution_statistic_flagged_iff `{Reductions} `{TextFunctions}
  (threshold_pct : float) (expected_data actual_data : DataFrame)
  (name : string) (xs ys : list float) (out : outcome)
  (expected_stats actual_stats : list (string * float))
  (stat : string) (ev av : float) :
  getitem expected_data name = Ok (Float64 xs) ->
  getitem actual_data name = Ok (Float64 ys) ->
  validate expected_data actual_data (DistributionValidation threshold_pct)
  = Ok out ->
  describe (Float64 xs) = Ok expected_stats ->
  describe (Float64 ys) = Ok actual_stats ->
  In (stat, ev) expected_stats ->
  dict_get stat actual_stats = Some av ->
  (stat_flagged out name stat <-> flags threshold_pct ev av = true).
Proof.
  intros He Ha Hrun Hde Hda Hin Hav. cbn [validate] in Hrun.
  destruct (leaf_validate_get _ _ _ _ name Hrun
              (getitem_Ok_columns _ _ _ He)) as (r & Hr & Hget).
  cbn [column_check] in Hr. unfold DistributionValidation_check in Hr.
  rewrite He in Hr. cbn [bind is_numeric_dtype] in Hr.
  rewrite Hde in Hr. cbn [bind] in Hr. rewrite Ha in Hr. cbn [bind] in Hr.
  rewrite Hda in Hr. cbn [bind] in Hr.
  bind_inv Hr. rename v into sd, Hv into Hloop.
  assert (Hnd : NoDup (keys expected_stats)).
  { cbn [describe] in Hde. injection Hde as <-. cbn.
    repeat constructor; simpl; intuition discriminate. }
  destruct (stat_loop_get _ _ _ Hnd _ _ stat Hloop) as [Hflag _].
  destruct (Hflag ev Hin) as (av' & Hav' & Hsd).
  rewrite Hav in Hav'. injection Hav' as <-. cbn [dict_get] in Hsd.
  unfold stat_flagged. subst r. split.
  - intros (stats & s0 & Hstats & Hs0). rewrite Hstats in Hr.
    destruct (dict_truthy sd); [| discriminate Hr].
    injection Hr as ->. rewrite Hsd in Hs0.
    destruct (flags threshold_pct ev av); [reflexivity | discriminate].
  - intros Hf. rewrite Hf in Hsd.
    assert (Ht : dict_truthy sd = true)
      by (destruct sd; [discriminate | reflexivity]).
    rewrite Ht in Hr. injection Hr as Hr. eauto.
Qed.

(** ** Calls leave their inputs alone *)








(** Scenario B run twice. *)
Example validate_twice_scenario_B :
  let w := {| self_ := NumericValidation 1e-6;
              expected_ := scenario_expected;
              actual_ := scenario_actual |} in
  fst (@call_validate reference_reductions literal_text
         (snd (@call_validate reference_reductions literal_text w)))
  = Ok {| status := Fail;
          differences :=
            [("amt", ValueDiff [(1, CFloat 20)] [(1, CFloat 20.0005)])] |}.
Proof. reflexivity. Qed.

(* ================================================================= *)
(** * Further properties of the strategies *)

(** ** NaN *)

Lemma SFcompare_refl_not_nan x :
  x <> S754_nan -> SFcompare x x = Some Eq.
Proof.
  destruct x as [s | s | | s m e]; intros Hx; cbn [SFcompare];
    try congruence; try (now destruct s).
  destruct s; rewrite Z.compare_refl, Pos.compare_cont_refl; reflexivity.
Qed.

Lemma eqb_self_false_nan x :
  PrimFloat.eqb x x = false -> Prim2SF x = S754_nan.
Proof.
  rewrite eqb_spec. unfold SFeqb. intros Hx.
  destruct (Prim2SF x) as [s | s | | s m e] eqn:Ex; try reflexivity;
    rewrite SFcompare_refl_not_nan in Hx; discriminate.
Qed.

Lemma ltb_nan_r t d : Prim2SF d = S754_nan -> PrimFloat.ltb t d = false.
Proof.
  intros Hd. rewrite ltb_spec, Hd. unfold SFltb.
  now destruct (Prim2SF t).
Qed.

Lemma abs_sub_nan x y :
  Prim2SF x = S754_nan \/ Prim2SF y = S754_nan ->
  Prim2SF (PrimFloat.abs (PrimFloat.sub x y)) = S754_nan.
Proof.
  intros Hxy. rewrite abs_spec, sub_spec. unfold SF64sub, SFsub.
  destruct Hxy as [-> | ->]; [reflexivity |].
  now destruct (Prim2SF x).
Qed.

Lemma Prim2SF_nan : Prim2SF PrimFloat.nan = S754_nan.
Proof. reflexivity. Qed.

(** ** Numeric strategy: what is and is not reported *)

Lemma align_nth_any {A B : Type} (da : A) (db : B) xs :
  forall ys i,
    nth_error (align da db xs ys) i
    = match nth_error xs i, nth_error ys i with
      | None, None => None
      | ox, oy => Some (match ox with Some x => x | None => da end,
                        match oy with Some y => y | None => db end)
      end.
Proof.
  induction xs as [| x xs IH]; intros ys i.
  - cbn [align]. rewrite nth_error_map.
    replace (nth_error (@nil A) i) with (@None A) by now destruct i.
    now destruct (nth_error ys i).
  - destruct ys as [| y ys]; destruct i as [| i]; cbn [align nth_error];
      try reflexivity.
    + rewrite IH. replace (nth_error (@nil B) i) with (@None B)
        by now destruct i.
      now destruct (nth_error xs i).
    + apply IH.
Qed.

Lemma missing_at_nan xs i :
  missing_at xs i ->
  Prim2SF (match nth_error xs i with
           | Some x => x
           | None => PrimFloat.nan
           end) = S754_nan.
Proof.
  unfold missing_at. destruct (nth_error xs i) as [x |]; intros Hm.
  - now apply eqb_self_false_nan.
  - exact Prim2SF_nan.
Qed.

(** A row of the mask is set only where both columns hold a value and
    the two values are beyond the tolerance. *)
Lemma numeric_mask_true tolerance xs ys i :
  nth_error (numeric_mask tolerance xs ys) i = Some true ->
  exists x y,
    nth_error xs i = Some x /\ nth_error ys i = Some y
    /\ PrimFloat.ltb tolerance (PrimFloat.abs (PrimFloat.sub x y)) = true.
Proof.
  unfold numeric_mask. rewrite !nth_error_map, align_nth_any.
  destruct (nth_error xs i) as [x |] eqn:Ex;
    destruct (nth_error ys i) as [y |] eqn:Ey; cbn; intros Hm;
    try discriminate.
  - injection Hm as Hm. eauto.
  - injection Hm as Hm.
    rewrite ltb_nan_r in Hm; [discriminate |].
    apply abs_sub_nan. right. exact Prim2SF_nan.
  - injection Hm as Hm.
    rewrite ltb_nan_r in Hm; [discriminate |].
    apply abs_sub_nan. left. exact Prim2SF_nan.
Qed.

Lemma any_all_false {A : Type} (f : A -> bool) (xs : list A) :
  (forall x, f x = false) -> any (map f xs) = false.
Proof.
  intros Hf. unfold any. induction xs as [| x xs IH]; simpl;
    [reflexivity | now rewrite Hf].
Qed.

(** What the numeric check stores is the selection of both columns by
    the mask, and it stores it only for two float64 columns. *)
Lemma NumericValidation_check_Some
  (expected_data actual_data : DataFrame) tolerance name d :
  NumericValidation_check expected_data actual_data tolerance name
  = Ok (Some d) ->
  exists xs ys,
    getitem expected_data name = Ok (Float64 xs)
    /\ getitem actual_data name = Ok (Float64 ys)
    /\ d = ValueDiff
             (select_from 0 (numeric_mask tolerance xs ys) (map CFloat xs))
             (select_from 0 (numeric_mask tolerance xs ys) (map CFloat ys)).
Proof.
  unfold NumericValidation_check. intros Hc.
  bind_inv Hc. rename v into e, Hv into He.
  destruct e as [xs | xs | tz xs]; cbn [is_numeric_dtype] in Hc;
    try discriminate.
  bind_inv Hc. rename v into a, Hv into Ha.
  destruct a as [ys | ys | tz ys]; cbn [series_sub_abs bind] in Hc.
  - cbv zeta in Hc. fold (numeric_mask tolerance xs ys) in Hc.
    destruct (any (numeric_mask tolerance xs ys)); [| discriminate].
    bind_inv Hc. bind_inv Hc. injection Hc as <-.
    unfold loc_to_dict in Hv, Hv0.
    destruct (Nat.leb _ _); [| discriminate].
    destruct (Nat.leb _ _); [| discriminate].
    injection Hv as <-. injection Hv0 as <-. eauto.
  - destruct ys; cbn [bind] in Hc; [| discriminate].
    cbv zeta in Hc. rewrite map_map, any_all_false in Hc; [discriminate |].
    intros x. now apply ltb_nan_r.
  - discriminate.
Qed.

Lemma numeric_outcome_detail `{Reductions} `{TextFunctions}
  (tolerance : float) (expected_data actual_data : DataFrame)
  (name : string) (out : outcome) (d : detail) :
  validate expected_data actual_data (NumericValidation tolerance) = Ok out ->
  dict_get name (differences out) = Some d ->
  exists xs ys,
    getitem expected_data name = Ok (Float64 xs)
    /\ getitem actual_data name = Ok (Float64 ys)
    /\ d = ValueDiff
             (select_from 0 (numeric_mask tolerance xs ys) (map CFloat xs))
             (select_from 0 (numeric_mask tolerance xs ys) (map CFloat ys)).
Proof.
  intros Hrun Hd. cbn [validate] in Hrun.
  assert (Hkey : In name (keys (differences out)))
    by (apply dict_get_keys; congruence).
  apply (leaf_validate_keys _ _ _ _ _ Hrun) in Hkey.
  destruct (leaf_validate_get _ _ _ _ name Hrun Hkey) as (r & Hr & Hget).
  rewrite Hd in Hget. subst r. cbn [column_check] in Hr.
  exact (NumericValidation_check_Some _ _ _ _ _ Hr).
Qed.



(** X2. A row without a value on one side is never reported by the
    numeric strategy, whatever the tolerance and whatever the other
    side holds: a NaN cell, or a row beyond the end of the shorter
    column. *)
Theorem numeric_missing_value_never_reported
  `{Reductions} `{TextFunctions}
  (tolerance : float) (expected_data actual_data : DataFrame)
  (name : string) (xs ys : list float) (out : outcome) (i : nat) :
  getitem expected_data name = Ok (Float64 xs) ->
  getitem actual_data name = Ok (Float64 ys) ->
  validate expected_data actual_data (NumericValidation tolerance) = Ok out ->
  missing_at xs i \/ missing_at ys i ->
  row_absent out name i.
Proof.
  intros He Ha Hrun Hmiss d Hd Hin.
  destruct (numeric_outcome_detail _ _ _ _ _ _ Hrun Hd)
    as (xs' & ys' & He' & Ha' & ->).
  rewrite He in He'. injection He' as <-.
  rewrite Ha in Ha'. injection Ha' as <-.
  cbn [detail_rows] in Hin. rewrite in_app_iff in Hin.
  assert (Hm : nth_error (numeric_mask tolerance xs ys) i = Some true)
    by (destruct Hin as [Hi | Hi]; exact (select_from_rows _ _ _ Hi)).
  destruct (numeric_mask_true _ _ _ _ Hm) as (x & y & Hx & Hy & Hlt).
  rewrite ltb_nan_r in Hlt; [discriminate |].
  apply abs_sub_nan.
  destruct Hmiss as [Hn | Hn]; apply missing_at_nan in Hn;
    [left; now rewrite Hx in Hn | right; now rewrite Hy in Hn].
Qed.

Lemma numeric_missing_value_never_reported_witness :
  exists out,
    @validate reference_reductions literal_text
      ragged_expected ragged_actual (NumericValidation 0.5) = Ok out
    /\ row_absent out "amt" 1 /\ row_absent out "amt" 2.
Proof.
  eexists. split; [reflexivity |].
  split;
    apply (@numeric_missing_value_never_reported
             reference_reductions literal_text 0.5
             ragged_expected ragged_actual "amt"
             [1; PrimFloat.nan; 3]%float [9; 7]%float _ _
             eq_refl eq_refl eq_refl);
    [left | right]; reflexivity.
Defined.

(** ** Null strategy: the general rule *)

Lemma null_flags_null_like flag values :
  null_flags flag values = map (null_like flag) values.
Proof.
  unfold null_flags, null_like. destruct flag.
  - induction values as [| v vs IH]; simpl; [reflexivity | now rewrite IH].
  - apply map_ext. intros v. now destruct (isna v).
Qed.

Lemma count_true_rows mask : count_true mask = List.length (true_rows mask).
Proof.
  unfold count_true, true_rows. rewrite length_map.
  generalize 0. induction mask as [| b mask IH]; intros k; simpl;
    [reflexivity |].
  destruct b; simpl; [f_equal |]; apply IH.
Qed.

Lemma series_ne_length {A : Type} (ne : A -> A -> bool) xs ys mask :
  series_ne ne xs ys = Ok mask ->
  List.length xs = List.length ys /\ List.length mask = List.length xs.
Proof.
  unfold series_ne. destruct (Nat.eqb _ _) eqn:E; [| discriminate].
  apply Nat.eqb_eq in E. intros Hm. injection Hm as <-.
  split; [exact E |]. rewrite length_map, length_combine. lia.
Qed.

Section NullRule.
Context `{Reductions} `{TextFunctions}.
Variables (expected_data actual_data : DataFrame) (flag : bool).

(** The detail the null strategy stores for a column of both frames. *)
Lemma null_outcome_detail (e a : column) name out :
  getitem expected_data name = Ok e ->
  getitem actual_data name = Ok a ->
  validate expected_data actual_data (NullValidation flag) = Ok out ->
  exists mask,
    series_ne xorb (map (null_like flag) (cells e))
                   (map (null_like flag) (cells a)) = Ok mask
    /\ dict_get name (differences out)
       = if any mask
         then Some (NullDiff (count_true mask)
                      (count_true (map (null_like flag) (cells e)))
                      (count_true (map (null_like flag) (cells a)))
                      (true_rows mask))
         else None.
Proof.
  intros He Ha Hrun. cbn [validate] in Hrun.
  destruct (leaf_validate_get _ _ _ _ name Hrun
              (getitem_Ok_columns _ _ _ He)) as (r & Hr & Hget).
  cbn [column_check] in Hr. unfold NullValidation_check in Hr.
  rewrite He in Hr. cbn [bind] in Hr. rewrite Ha in Hr. cbn [bind] in Hr.
  rewrite !null_flags_null_like in Hr.
  bind_inv Hr. exists v. split; [exact Hv |]. rewrite Hget.
  destruct (any v); now injection Hr as <-.
Qed.
End NullRule.

(** X3. The null strategy returns an outcome exactly when every column
    of the expected frame is a column of the actual frame with the same
    number of rows; otherwise it raises. *)
Theorem null_returns_iff_columns_match
  `{Reductions} `{TextFunctions}
  (flag : bool) (expected_data actual_data : DataFrame) :
  (exists out,
      validate expected_data actual_data (NullValidation flag) = Ok out)
  <-> (forall name e,
         getitem expected_data name = Ok e ->
         exists a, getitem actual_data name = Ok a
                   /\ series_len a = series_len e).
Proof.
  split.
  - intros (out & Hrun) name e He. cbn [validate] in Hrun.
    destruct (leaf_validate_get _ _ _ _ name Hrun
                (getitem_Ok_columns _ _ _ He)) as (r & Hr & _).
    cbn [column_check] in Hr. unfold NullValidation_check in Hr.
    rewrite He in Hr. cbn [bind] in Hr.
    bind_inv Hr. rename v into a. exists a. split; [exact Hv |].
    bind_inv Hr. apply series_ne_length in Hv0. destruct Hv0 as (Hlen & _).
    rewrite !null_flags_null_like, !length_map in Hlen.
    unfold series_len. congruence.
  - intros Hcols. cbn [validate]. unfold leaf_validate.
    destruct (for_columns_total
                (column_check expected_data actual_data (NullValidation flag))
                (columns expected_data)) with (acc := @nil (string * detail))
      as (diffs & ->); [| cbn; eauto].
    intros c Hc. destruct (columns_getitem _ _ Hc) as (e & He).
    destruct (Hcols _ _ He) as (a & Ha & Hlen).
    cbn [column_check]. unfold NullValidation_check.
    rewrite He. cbn [bind]. rewrite Ha. cbn [bind].
    unfold series_ne. rewrite !null_flags_null_like, !length_map.
    unfold series_len in Hlen. rewrite <- Hlen, Nat.eqb_refl. cbn [bind].
    destruct (any _); eauto.
Qed.

(** X4. The null strategy reports a row of a column exactly when the
    two cells disagree on being null-like: missing, or with the flag
    set, equal to the empty string or to the text [null/empty]. *)
Theorem null_row_reported_iff_null_likeness_differs
  `{Reductions} `{TextFunctions}
  (flag : bool) (expected_data actual_data : DataFrame)
  (e a : column) (name : string) (out : outcome) (i : nat) (x y : cell) :
  getitem expected_data name = Ok e ->
  getitem actual_data name = Ok a ->
  validate expected_data actual_data (NullValidation flag) = Ok out ->
  nth_error (cells e) i = Some x ->
  nth_error (cells a) i = Some y ->
  (null_row_reported out name i <-> null_like flag x <> null_like flag y).
Proof.
  intros He Ha Hrun Hx Hy.
  destruct (null_outcome_detail _ _ _ _ _ _ _ He Ha Hrun)
    as (mask & Hmask & Hget).
  assert (Hrow : nth_error mask i
                 = Some (xorb (null_like flag x) (null_like flag y))).
  { apply (series_ne_nth _ _ _ _ _ _ _ Hmask);
      rewrite nth_error_map; [now rewrite Hx | now rewrite Hy]. }
  unfold null_row_reported. rewrite Hget. split.
  - intros (m & en & an & rows & Hd & Hin).
    destruct (any mask); [| discriminate]. injection Hd as _ _ _ <-.
    apply true_rows_In in Hin. rewrite Hrow in Hin. injection Hin as Hxor.
    intros Heq. rewrite Heq, xorb_nilpotent in Hxor. discriminate.
  - intros Hne.
    assert (Hxor : xorb (null_like flag x) (null_like flag y) = true)
      by (destruct (null_like flag x), (null_like flag y);
          first [reflexivity | now elim Hne]).
    rewrite Hxor in Hrow.
    assert (Hany : any mask = true) by (apply any_nth; eauto).
    rewrite Hany. eexists _, _, _, _. split; [reflexivity |].
    now apply true_rows_In.
Qed.

Lemma null_row_reported_iff_null_likeness_differs_witness :
  exists out,
    @validate reference_reductions literal_text
      null_patterns_expected null_patterns_actual (NullValidation true) = Ok out
    /\ null_row_reported out "note" 0
    /\ ~ null_row_reported out "note" 1
    /\ null_row_reported out "note" 2
    /\ ~ null_row_reported out "note" 3.
Proof.
  eexists. split; [reflexivity |].
  pose proof (fun i x y Hx Hy =>
    @null_row_reported_iff_null_likeness_differs
      reference_reductions literal_text true
      null_patterns_expected null_patterns_actual _ _ "note" _ i x y
      eq_refl eq_refl eq_refl Hx Hy) as Hrule.
  repeat split.
  - apply (Hrule 0 (CStr "a") CNone eq_refl eq_refl). discriminate.
  - intros Hr. apply (Hrule 1 (CStr "null/empty") (CStr EmptyString)
                        eq_refl eq_refl) in Hr. now apply Hr.
  - apply (Hrule 2 CNone (CStr "c") eq_refl eq_refl). discriminate.
  - intros Hr. apply (Hrule 3 (CStr "b") (CStr "d") eq_refl eq_refl) in Hr.
    now apply Hr.
Defined.

(** X5. The counts of a null detail agree with its rows: the number of
    mismatched rows is the length of [rows_with_differences] and is at
    least one, every listed row is a row of the column, and the two
    null counts are the numbers of null-like cells of each side. *)
Theorem null_detail_counts_consistent
  `{Reductions} `{TextFunctions}
  (flag : bool) (expected_data actual_data : DataFrame)
  (e a : column) (name : string) (out : outcome)
  (mismatched expected_nulls actual_nulls : nat) (rows : list nat) :
  getitem expected_data name = Ok e ->
  getitem actual_data name = Ok a ->
  validate expected_data actual_data (NullValidation flag) = Ok out ->
  dict_get name (differences out)
  = Some (NullDiff mismatched expected_nulls actual_nulls rows) ->
  mismatched = List.length rows
  /\ 1 <= mismatched
  /\ (forall i, In i rows -> i < series_len e)
  /\ expected_nulls
     = List.length (filter (null_like flag) (cells e))
  /\ actual_nulls
     = List.length (filter (null_like flag) (cells a)).
Proof.
  intros He Ha Hrun Hd.
  destruct (null_outcome_detail _ _ _ _ _ _ _ He Ha Hrun)
    as (mask & Hmask & Hget).
  rewrite Hd in Hget. destruct (any mask) eqn:Hany; [| discriminate].
  injection Hget as -> -> -> ->.
  destruct (series_ne_length _ _ _ _ Hmask) as (_ & Hlen).
  rewrite length_map in Hlen.
  assert (Hcount : forall (f : cell -> bool) vs,
             count_true (map f vs) = List.length (filter f vs)).
  { intros f vs. unfold count_true.
    induction vs as [| v vs IH]; simpl; [reflexivity |].
    destruct (f v); simpl; now rewrite IH. }
  split; [apply count_true_rows |]. split; [| split; [| split]].
  - rewrite count_true_rows. apply any_nth in Hany.
    destruct Hany as (i & Hi). apply true_rows_In in Hi.
    destruct (true_rows mask); [destruct Hi | simpl; lia].
  - intros i Hi. apply true_rows_In in Hi.
    unfold series_len. rewrite <- Hlen. apply nth_error_Some. congruence.
  - apply Hcount.
  - apply Hcount.
Qed.

Lemma null_detail_counts_consistent_witness :
  2 = List.length [0; 2]
  /\ 1 <= 2
  /\ (forall i, In i [0; 2] ->
        i < series_len (Object [Some "a"; Some "null/empty"; None; Some "b"]))
  /\ 2 = List.length
           (filter (null_like true)
              (cells (Object [Some "a"; Some "null/empty"; None; Some "b"])))
  /\ 2 = List.length
           (filter (null_like true)
              (cells (Object [None; Some EmptyString; Some "c"; Some "d"]))).
Proof.
  exact (@null_detail_counts_consistent reference_reductions literal_text
           true null_patterns_expected null_patterns_actual _ _ "note" _
           2 2 2 [0; 2] eq_refl eq_refl eq_refl eq_refl).
Defined.

(** ** Categorical strategy *)

Lemma combine_nth_error {A B : Type} (xs : list A) :
  forall (ys : list B) i x y,
    nth_error xs i = Some x -> nth_error ys i = Some y ->
    nth_error (combine xs ys) i = Some (x, y).
Proof.
  induction xs as [| x0 xs IH]; intros [| y0 ys] [| i] x y Hx Hy;
    simpl in *; try discriminate.
  - congruence.
  - now apply IH.
Qed.

(** The detail the categorical strategy stores for a text column. *)
Lemma categorical_outcome_detail `{Reductions} `{TextFunctions}
  (expected_data actual_data : DataFrame) (xs : list (option string))
  (a : column) name out :
  getitem expected_data name = Ok (Object xs) ->
  getitem actual_data name = Ok a ->
  validate expected_data actual_data CategoricalValidation = Ok out ->
  exists mask,
    series_ne py_ne (cells (Object xs)) (cells a) = Ok mask
    /\ dict_get name (differences out)
       = if any mask
         then Some (ValueDiff (select_from 0 mask (cells (Object xs)))
                              (select_from 0 mask (cells a)))
         else None.
Proof.
  intros He Ha Hrun. cbn [validate] in Hrun.
  destruct (leaf_validate_get _ _ _ _ name Hrun
              (getitem_Ok_columns _ _ _ He)) as (r & Hr & Hget).
  cbn [column_check] in Hr. unfold CategoricalValidation_check in Hr.
  rewrite He in Hr. cbn [bind is_object_dtype] in Hr.
  rewrite Ha in Hr. cbn [bind] in Hr.
  bind_inv Hr. rename v into mask. exists mask. split; [exact Hv |].
  rewrite Hget. destruct (any mask); [| now injection Hr as <-].
  destruct (series_ne_length _ _ _ _ Hv) as (Hxy & Hlen).
  rewrite !loc_to_dict_Ok in Hr by (unfold series_len; lia).
  now injection Hr as <-.
Qed.

(** X6. In a text column the categorical strategy reports a row holding
    a string on both sides exactly when the two strings differ, case
    included; equal strings are never reported. *)
Theorem categorical_strings_reported_iff_different
  `{Reductions} `{TextFunctions}
  (expected_data actual_data : DataFrame) (xs ys : list (option string))
  (name : string) (out : outcome) (i : nat) (s t : string) :
  getitem expected_data name = Ok (Object xs) ->
  getitem actual_data name = Ok (Object ys) ->
  validate expected_data actual_data CategoricalValidation = Ok out ->
  nth_error xs i = Some (Some s) ->
  nth_error ys i = Some (Some t) ->
  (row_reported out name i (CStr s) (CStr t) <-> s <> t)
  /\ (s = t -> row_absent out name i).
Proof.
  intros He Ha Hrun Hx Hy.
  destruct (categorical_outcome_detail _ _ _ _ _ _ He Ha Hrun)
    as (mask & Hmask & Hget).
  assert (Hcx : nth_error (cells (Object xs)) i = Some (CStr s))
    by (cbn [cells]; now rewrite nth_error_map, Hx).
  assert (Hcy : nth_error (cells (Object ys)) i = Some (CStr t))
    by (cbn [cells]; now rewrite nth_error_map, Hy).
  pose proof (series_ne_nth _ _ _ _ _ _ _ Hmask Hcx Hcy) as Hrow.
  unfold py_ne in Hrow. cbn [isna cell_eqb orb] in Hrow.
  assert (Hsame : s = t -> row_absent out name i).
  { intros -> d Hd. rewrite String.eqb_refl in Hrow. cbn [negb] in Hrow.
    rewrite Hget in Hd.
    destruct (any mask); [| discriminate]. injection Hd as <-.
    cbn [detail_rows]. rewrite in_app_iff.
    intros [Hin | Hin]; apply select_from_rows in Hin; congruence. }
  split; [| exact Hsame]. split.
  - intros (ex & ac & Hd & Hin & _) Heq.
    apply (Hsame Heq _ Hd). cbn [detail_rows]. rewrite in_app_iff. left.
    apply in_map_iff. now exists (i, CStr s).
  - intros Hne. apply String.eqb_neq in Hne. rewrite Hne in Hrow.
    cbn [negb] in Hrow.
    assert (Hany : any mask = true) by (apply any_nth; eauto).
    rewrite Hany in Hget. unfold row_reported. eexists _, _.
    split; [exact Hget |].
    split; apply select_from_In; exists i; auto.
Qed.

Lemma categorical_strings_reported_iff_different_witness :
  exists out,
    @validate reference_reductions literal_text
      cities_expected cities_actual CategoricalValidation = Ok out
    /\ row_absent out "city" 0
    /\ row_reported out "city" 1 (CStr "Bergen") (CStr "bergen").
Proof.
  eexists. split; [reflexivity |]. split.
  - apply (@categorical_strings_reported_iff_different
             reference_reductions literal_text
             cities_expected cities_actual _ _ "city" _ 0 "Oslo" "Oslo"
             eq_refl eq_refl eq_refl eq_refl eq_refl).
    reflexivity.
  - apply (@categorical_strings_reported_iff_different
             reference_reductions literal_text
             cities_expected cities_actual _ _ "city" _ 1 "Bergen" "bergen"
             eq_refl eq_refl eq_refl eq_refl eq_refl).
    discriminate.
Defined.

(** X7. In a text column the categorical strategy reports every row
    with a missing value on either side, also when the value is missing
    on both: a missing value compares unequal to everything. *)
Theorem categorical_missing_always_reported
  `{Reductions} `{TextFunctions}
  (expected_data actual_data : DataFrame) (xs ys : list (option string))
  (name : string) (out : outcome) (i : nat) (x y : cell) :
  getitem expected_data name = Ok (Object xs) ->
  getitem actual_data name = Ok (Object ys) ->
  validate expected_data actual_data CategoricalValidation = Ok out ->
  nth_error (cells (Object xs)) i = Some x ->
  nth_error (cells (Object ys)) i = Some y ->
  x = CNone \/ y = CNone ->
  row_reported out name i x y.
Proof.
  intros He Ha Hrun Hx Hy Hnone.
  destruct (categorical_outcome_detail _ _ _ _ _ _ He Ha Hrun)
    as (mask & Hmask & Hget).
  pose proof (series_ne_nth _ _ _ _ _ _ _ Hmask Hx Hy) as Hrow.
  assert (Hne : py_ne x y = true).
  { unfold py_ne. destruct Hnone as [-> | ->]; cbn [isna];
      [reflexivity | now rewrite orb_true_r]. }
  rewrite Hne in Hrow.
  assert (Hany : any mask = true) by (apply any_nth; eauto).
  rewrite Hany in Hget. unfold row_reported. eexists _, _.
  split; [exact Hget |].
  split; apply select_from_In; exists i; auto.
Qed.

Lemma categorical_missing_always_reported_witness :
  exists out,
    @validate reference_reductions literal_text
      cities_expected cities_actual CategoricalValidation = Ok out
    /\ row_reported out "city" 2 CNone (CStr "Moss")
    /\ row_reported out "city" 3 CNone CNone.
Proof.
  eexists. split; [reflexivity |]. split.
  - apply (@categorical_missing_always_reported
             reference_reductions literal_text
             cities_expected cities_actual _ _ "city" _ 2 CNone (CStr "Moss")
             eq_refl eq_refl eq_refl eq_refl eq_refl).
    now left.
  - apply (@categorical_missing_always_reported
             reference_reductions literal_text
             cities_expected cities_actual _ _ "city" _ 3 CNone CNone
             eq_refl eq_refl eq_refl eq_refl eq_refl).
    now left.
Defined.

(** ** DateTime strategy: outcomes and mismatches *)

(** X8. Every outcome the datetime strategy returns is a pass without
    differences, on any two frames and for any configuration: it has no
    way to return a fail. *)
Theorem datetime_never_returns_fail
  `{Reductions} `{TextFunctions}
  (timezone_aware : bool) (allow_time_difference_seconds : Z)
  (expected_data actual_data : DataFrame) (out : outcome) :
  validate expected_data actual_data
    (DateTimeValidation_init timezone_aware allow_time_difference_seconds)
  = Ok out ->
  status out = Pass /\ differences out = [].
Proof.
  unfold DateTimeValidation_init. cbn [validate]. intros Hrun.
  apply leaf_validate_Ok in Hrun. destruct Hrun as (diffs & Hloop & ->).
  assert (Hall : Forall (fun _ => False) diffs).
  { refine (for_columns_Forall _ _ _ _ _ _ (Forall_nil _) Hloop).
    intros c d _ Hc. cbn [column_check] in Hc.
    exact (DateTimeValidation_check_no_detail _ _ _ _ _ _ Hc). }
  destruct diffs as [| p rest]; [split; reflexivity |].
  inversion Hall as [| ? ? Hfalse _]. destruct Hfalse.
Qed.

Lemma datetime_never_returns_fail_witness :
  status {| status := Pass; differences := [] |} = Pass
  /\ differences {| status := Pass; differences := [] |} = [].
Proof.
  exact (@datetime_never_returns_fail reference_reductions literal_text
           true 5 instant_expected instant_actual _ eq_refl).
Defined.

Lemma naive_index_nth tz xs i t :
  nth_error xs i = Some (Some t) ->
  exists l, naive_index (Datetime64 tz xs) = Ok l
            /\ List.length l = List.length xs
            /\ nth_error l i = Some (Some (compared_instant false tz t)).
Proof.
  intros Hx. destruct tz as [off |]; cbn [naive_index compared_instant].
  - eexists. split; [reflexivity |]. split; [apply length_map |].
    now rewrite nth_error_map, Hx.
  - eauto.
Qed.

Lemma td_mask_nth (l : list (option Z)) (wrap : list (option Z) -> timedeltas)
  allowed i d :
  (forall xs, td_values (wrap xs) = xs) ->
  (forall xs ys, td_with (wrap xs) ys = wrap ys) ->
  nth_error l i = Some (Some d) ->
  (allowed < Z.abs d)%Z ->
  any (td_gt (td_abs (wrap l)) allowed) = true.
Proof.
  intros Hval Hwith Hl Hlt. apply any_nth. exists i.
  unfold td_gt, td_abs. rewrite Hwith, !Hval, !nth_error_map, Hl.
  cbn. now apply Z.ltb_lt in Hlt as ->.
Qed.

(** X9. A timestamp column with one row whose two instants are farther
    apart than the allowed difference makes the datetime strategy raise:
    no outcome is returned for the two frames.  The instants compared
    are the stored ones when [timezone_aware] is set, the wall-clock
    ones otherwise. *)
Theorem datetime_mismatch_returns_no_outcome
  `{Reductions} `{TextFunctions}
  (timezone_aware : bool) (allowed_difference : Z)
  (expected_data actual_data : DataFrame) (name : string)
  (tze tza : option Z) (xs ys : list (option Z)) (i : nat) (t u : Z) :
  getitem expected_data name = Ok (Datetime64 tze xs) ->
  getitem actual_data name = Ok (Datetime64 tza ys) ->
  nth_error xs i = Some (Some t) ->
  nth_error ys i = Some (Some u) ->
  (allowed_difference
   < Z.abs (compared_instant timezone_aware tze t
            - compared_instant timezone_aware tza u))%Z ->
  forall out,
    validate expected_data actual_data
      (DateTimeValidation timezone_aware allowed_difference) <> Ok out.
Proof.
  intros He Ha Hx Hy Hfar out Hrun. cbn [validate] in Hrun.
  destruct (leaf_validate_get _ _ _ _ name Hrun
              (getitem_Ok_columns _ _ _ He)) as (r & Hr & _).
  cbn [column_check] in Hr. unfold DateTimeValidation_check in Hr.
  rewrite He in Hr. cbn [bind is_datetime64_any_dtype] in Hr.
  destruct timezone_aware; cbn [negb compared_instant] in Hr, Hfar.
  - rewrite Ha in Hr. cbn [bind] in Hr.
    assert (Hsub : exists l,
               (datetime_sub (Datetime64 tze xs) (Datetime64 tza ys)
                = Ok (TdSeries l) /\ nth_error l i = Some (Some (t - u)%Z))
               \/ exists e, datetime_sub (Datetime64 tze xs) (Datetime64 tza ys)
                            = Raise e).
    { destruct tze, tza; cbn [datetime_sub];
        try (exists []; right; eexists; reflexivity);
        eexists; left; (split; [reflexivity |]);
        now rewrite nth_error_map, (align_nth _ _ _ _ _ _ _ Hx Hy). }
    destruct Hsub as (l & [(Hs & Hl) | (e & Hs)]); rewrite Hs in Hr;
      cbn [bind] in Hr; [| discriminate].
    rewrite (td_mask_nth l TdSeries _ i _ (fun _ => eq_refl)
               (fun _ _ => eq_refl) Hl Hfar) in Hr.
    unfold index_to_dict in Hr. crunch_check Hr.
  - destruct (naive_index_nth tze _ _ _ Hx) as (le & Hle & Hlen_e & Hnth_e).
    destruct (naive_index_nth tza _ _ _ Hy) as (la & Hla & Hlen_a & Hnth_a).
    rewrite Hle in Hr. cbn [bind] in Hr. rewrite Ha in Hr. cbn [bind] in Hr.
    rewrite Hla in Hr. cbn [bind] in Hr. unfold index_sub in Hr.
    destruct (Nat.eqb _ _); cbn [bind] in Hr; [| discriminate].
    assert (Hl : nth_error (map sub_instants (combine le la)) i
                 = Some (Some (compared_instant false tze t
                               - compared_instant false tza u)%Z))
      by now rewrite nth_error_map, (combine_nth_error _ _ _ _ _ Hnth_e Hnth_a).
    rewrite (td_mask_nth _ TdIndex _ i _ (fun _ => eq_refl)
               (fun _ _ => eq_refl) Hl Hfar) in Hr.
    unfold index_to_dict in Hr. crunch_check Hr.
Qed.

Lemma datetime_mismatch_returns_no_outcome_witness :
  (forall out,
      @validate reference_reductions literal_text
        instant_expected instant_actual (DateTimeValidation true 0) <> Ok out)
  /\ (forall out,
         @validate reference_reductions literal_text
           aware_expected naive_actual (DateTimeValidation false 0) <> Ok out).
Proof.
  split.
  - apply (@datetime_mismatch_returns_no_outcome
             reference_reductions literal_text true 0
             instant_expected instant_actual "ts" None None
             [Some 0%Z] [Some 5000000000%Z] 0 0 5000000000
             eq_refl eq_refl eq_refl eq_refl).
    reflexivity.
  - apply (@datetime_mismatch_returns_no_outcome
             reference_reductions literal_text false 0
             aware_expected naive_actual "ts" (Some 3600%Z) None
             [Some 0%Z] [Some 0%Z] 0 0 0
             eq_refl eq_refl eq_refl eq_refl).
    reflexivity.
Defined.

(** ** Distribution strategy: the rule for each statistic *)

Lemma percentage_difference_nan ev av :
  Prim2SF ev = S754_nan \/ Prim2SF av = S754_nan ->
  Prim2SF (percentage_difference ev av) = S754_nan.
Proof.
  intros Hn. unfold percentage_difference.
  rewrite mul_spec, div_spec, (abs_sub_nan _ _ Hn). reflexivity.
Qed.

(** X10. On a float64 column of both frames the distribution strategy
    flags each of the five statistics exactly when its expected value
    differs from zero and
    [abs(expected - actual) / expected * 100] exceeds the threshold,
    each statistic on its own. *)
Theorem distribution_flags_each_statistic_by_rule
  `{Reductions} `{TextFunctions}
  (threshold_pct : float) (expected_data actual_data : DataFrame)
  (name : string) (xs ys : list float) (out : outcome) :
  getitem expected_data name = Ok (Float64 xs) ->
  getitem actual_data name = Ok (Float64 ys) ->
  validate expected_data actual_data (DistributionValidation threshold_pct)
  = Ok out ->
  (stat_flagged out name "mean" <->
   flags threshold_pct (series_mean xs) (series_mean ys) = true)
  /\ (stat_flagged out name "median" <->
      flags threshold_pct (series_median xs) (series_median ys) = true)
  /\ (stat_flagged out name "std" <->
      flags threshold_pct (series_std xs) (series_std ys) = true)
  /\ (stat_flagged out name "min" <->
      flags threshold_pct (series_min xs) (series_min ys) = true)
  /\ (stat_flagged out name "max" <->
      flags threshold_pct (series_max xs) (series_max ys) = true).
Proof.
  intros He Ha Hrun.
  pose proof (fun stat ev av =>
    distribution_statistic_flagged_iff threshold_pct _ _ name xs ys out
      _ _ stat ev av He Ha Hrun eq_refl eq_refl) as Hrule.
  repeat split; apply Hrule; simpl; auto 10.
Qed.

Lemma distribution_flags_each_statistic_by_rule_witness :
  exists out,
    @validate reference_reductions literal_text
      spread_expected spread_actual (DistributionValidation 105) = Ok out
    /\ stat_flagged out "amt" "mean"
    /\ ~ stat_flagged out "amt" "median"
    /\ stat_flagged out "amt" "max".
Proof.
  eexists. split; [reflexivity |].
  destruct (@distribution_flags_each_statistic_by_rule
              reference_reductions literal_text 105
              spread_expected spread_actual "amt" _ _ _
              eq_refl eq_refl eq_refl)
    as (Hmean & Hmedian & _ & _ & Hmax).
  split; [apply Hmean; reflexivity |].
  split; [intros Hf; apply Hmedian in Hf; discriminate Hf |].
  apply Hmax. reflexivity.
Defined.

(** X11. A statistic is never flagged when its expected value is zero,
    or when it is NaN on either side, however far apart the two values
    are and whatever the threshold: a zero baseline, and a statistic
    that does not exist (such as the standard deviation of one row),
    pass silently. *)
Theorem distribution_zero_or_nan_statistic_never_flagged
  `{Reductions} `{TextFunctions}
  (threshold_pct : float) (expected_data actual_data : DataFrame)
  (name : string) (xs ys : list float) (out : outcome)
  (expected_stats actual_stats : list (string * float))
  (stat : string) (ev av : float) :
  getitem expected_data name = Ok (Float64 xs) ->
  getitem actual_data name = Ok (Float64 ys) ->
  validate expected_data actual_data (DistributionValidation threshold_pct)
  = Ok out ->
  describe (Float64 xs) = Ok expected_stats ->
  describe (Float64 ys) = Ok actual_stats ->
  In (stat, ev) expected_stats ->
  dict_get stat actual_stats = Some av ->
  PrimFloat.eqb ev 0 = true
  \/ PrimFloat.eqb ev ev = false
  \/ PrimFloat.eqb av av = false ->
  ~ stat_flagged out name stat.
Proof.
  intros He Ha Hrun Hde Hda Hin Hav Hedge Hflag.
  apply (distribution_statistic_flagged_iff threshold_pct _ _ name xs ys out
           _ _ stat ev av He Ha Hrun Hde Hda Hin Hav) in Hflag.
  unfold flags in Hflag. apply andb_prop in Hflag.
  destruct Hflag as (Hnz & Hlt).
  destruct Hedge as [Hz | Hnan].
  - rewrite Hz in Hnz. discriminate.
  - rewrite ltb_nan_r in Hlt; [discriminate |].
    apply percentage_difference_nan.
    destruct Hnan as [Hn | Hn]; apply eqb_self_false_nan in Hn; auto.
Qed.

Lemma distribution_zero_or_nan_statistic_never_flagged_witness :
  exists out,
    @validate reference_reductions literal_text
      zero_expected zero_actual (DistributionValidation 5) = Ok out
    /\ status out = Pass
    /\ ~ stat_flagged out "amt" "mean".
Proof.
  eexists. split; [reflexivity |]. split; [reflexivity |].
  apply (@distribution_zero_or_nan_statistic_never_flagged
           reference_reductions literal_text 5
           zero_expected zero_actual "amt" _ _ _ _ _ "mean" 0 6
           eq_refl eq_refl eq_refl eq_refl eq_refl
           (or_introl eq_refl) eq_refl).
  now left.
Defined.

(** ** Pattern strategy *)

Lemma for_columns_all_None check names acc :
  (forall c, In c names -> check c = Ok None) ->
  for_columns check names acc = Ok acc.
Proof.
  induction names as [| n rest IH]; intros Hall; simpl; [reflexivity |].
  rewrite (Hall n (or_introl eq_refl)). simpl.
  apply IH. intros c Hc. apply Hall. now right.
Qed.

(** X12. A pattern strategy passes any two frames, without raising,
    when no column of the expected frame has a configured pattern; in
    particular the instance built from an empty [patterns] does, which
    is the only one the constructor can build. *)
Theorem pattern_without_configured_column_passes
  `{Reductions} `{TextFunctions}
  (patterns : list (string * string)) (expected_data actual_data : DataFrame) :
  (forall name, In name (columns expected_data) ->
                dict_get name patterns = None) ->
  validate expected_data actual_data (PatternValidation patterns)
  = Ok {| status := Pass; differences := [] |}.
Proof.
  intros Hnone. cbn [validate]. unfold leaf_validate.
  rewrite for_columns_all_None; [reflexivity |].
  intros c Hc. cbn [column_check]. unfold PatternValidation_check.
  destruct (columns_getitem _ _ Hc) as (col & ->). cbn [bind].
  rewrite (Hnone c Hc). now destruct (is_string_dtype col).
Qed.

Lemma pattern_without_configured_column_passes_witness :
  @construct_and_validate reference_reductions literal_text
    [] codes_expected right_only
  = Ok {| status := Pass; differences := [] |}
  /\ @validate reference_reductions literal_text codes_expected codes_actual
       (PatternValidation [("email", "^\S+@\S+$")])
     = Ok {| status := Pass; differences := [] |}.
Proof.
  split.
  - exact (@pattern_without_configured_column_passes
             reference_reductions literal_text [] codes_expected right_only
             (fun _ _ => eq_refl)).
  - apply (@pattern_without_configured_column_passes
             reference_reductions literal_text).
    intros name [<- | []]. reflexivity.
Defined.

Lemma str_match_cells `{TextFunctions} pattern xs :
  str_match pattern (Object xs)
  = Ok (map (cell_matches pattern) (cells (Object xs))).
Proof.
  cbn [str_match cells]. rewrite map_map. f_equal.
  apply map_ext. now intros [s |].
Qed.

Lemma count_xor_combine {A : Type} (f : A -> bool) (xs : list A) :
  forall ys,
    count_true (map (fun p => xorb (fst p) (snd p))
                    (combine (map f xs) (map f ys)))
    = List.length (filter (fun p => xorb (f (fst p)) (f (snd p)))
                          (combine xs ys)).
Proof.
  unfold count_true.
  induction xs as [| x xs IH]; intros [| y ys]; cbn; try reflexivity.
  destruct (xorb (f x) (f y)); cbn; now rewrite IH.
Qed.

(** X13. When a pattern strategy reports a text column, the number of
    mismatched rows counts the rows whose two cells disagree on
    matching the pattern, but [invalid_values] lists every row of the
    actual column that does not match, also the rows where the
    expected cell does not match either. *)
Theorem pattern_invalid_values_are_all_unmatched_actual_rows
  `{Reductions} `{TextFunctions}
  (patterns : list (string * string)) (expected_data actual_data : DataFrame)
  (name pattern : string) (xs ys : list (option string)) (out : outcome)
  (mismatched : nat) (invalid : list (nat * cell)) :
  getitem expected_data name = Ok (Object xs) ->
  getitem actual_data name = Ok (Object ys) ->
  dict_get name patterns = Some pattern ->
  validate expected_data actual_data (PatternValidation patterns) = Ok out ->
  dict_get name (differences out) = Some (PatternDiff mismatched invalid) ->
  (forall i y, In (i, y) invalid <->
               nth_error (cells (Object ys)) i = Some y
               /\ cell_matches pattern y = false)
  /\ mismatched
     = List.length
         (filter (fun p => xorb (cell_matches pattern (fst p))
                                (cell_matches pattern (snd p)))
                 (combine (cells (Object xs)) (cells (Object ys))))
  /\ 1 <= mismatched.
Proof.
  intros He Ha Hp Hrun Hd. cbn [validate] in Hrun.
  destruct (leaf_validate_get _ _ _ _ name Hrun
              (getitem_Ok_columns _ _ _ He)) as (r & Hr & Hget).
  rewrite Hd in Hget. subst r.
  cbn [column_check] in Hr. unfold PatternValidation_check in Hr.
  rewrite He in Hr. cbn [bind is_string_dtype] in Hr. rewrite Hp in Hr.
  rewrite str_match_cells in Hr. cbn [bind] in Hr.
  rewrite Ha in Hr. cbn [bind] in Hr.
  rewrite str_match_cells in Hr. cbn [bind] in Hr.
  bind_inv Hr. rename v into mask, Hv into Hmask.
  destruct (any mask) eqn:Hany; [| discriminate].
  bind_inv Hr. injection Hr as <- <-.
  unfold loc_to_dict in Hv. destruct (Nat.leb _ _); [| discriminate].
  injection Hv as <-.
  split; [| split].
  - intros i y. rewrite select_from_In. cbn [cells]. split.
    + intros (j & -> & Hm & Hy). cbn [Nat.add]. split; [exact Hy |].
      rewrite !nth_error_map in Hm. rewrite nth_error_map in Hy.
      destruct (nth_error ys j) as [o |]; [| discriminate].
      cbn in Hm, Hy. injection Hy as <-. injection Hm as Hm.
      now apply negb_true_iff in Hm.
    + intros (Hy & Hf). exists i. split; [reflexivity |].
      split; [| exact Hy]. rewrite !nth_error_map.
      rewrite nth_error_map in Hy.
      destruct (nth_error ys i) as [o |]; [| discriminate].
      cbn in Hy |- *. injection Hy as <-. now rewrite Hf.
  - unfold series_ne in Hmask. destruct (Nat.eqb _ _); [| discriminate].
    injection Hmask as <-. apply count_xor_combine.
  - rewrite count_true_rows. apply any_nth in Hany.
    destruct Hany as (i & Hi). apply true_rows_In in Hi.
    destruct (true_rows mask); [destruct Hi | simpl; lia].
Qed.

Lemma pattern_invalid_values_are_all_unmatched_actual_rows_witness :
  @validate reference_reductions literal_text codes_expected codes_actual
    (PatternValidation [("code", "A-")])
  = Ok {| status := Fail;
          differences :=
            [("code", PatternDiff 1 [(1, CStr "X-2"); (2, CStr "C-3")])] |}
  /\ (forall i y,
        In (i, y) [(1, CStr "X-2"); (2, CStr "C-3")] <->
        nth_error (cells (Object [Some "A-1"; Some "X-2"; Some "C-3"])) i
        = Some y
        /\ @cell_matches literal_text "A-" y = false).
Proof.
  split; [reflexivity |].
  exact (proj1 (@pattern_invalid_values_are_all_unmatched_actual_rows
                  reference_reductions literal_text [("code", "A-")]
                  codes_expected codes_actual "code" "A-" _ _ _ 1 _
                  eq_refl eq_refl eq_refl eq_refl eq_refl)).
Defined.

(** ** Composite strategy: what a key holds *)

Lemma composite_loop_last_wins (run : strategy -> result outcome) strategies :
  forall acc st out k d,
    composite_loop run strategies acc st = Ok out ->
    dict_get k (differences out) = Some d ->
    (exists before s after o,
        strategies = before ++ s :: after
        /\ class_name s = k /\ run s = Ok o /\ status o = Fail
        /\ d = Nested (differences o)
        /\ forall s' o', In s' after -> class_name s' = k ->
                         run s' = Ok o' -> status o' <> Fail)
    \/ (dict_get k acc = Some d
        /\ forall s' o', In s' strategies -> class_name s' = k ->
                         run s' = Ok o' -> status o' <> Fail).
Proof.
  induction strategies as [| s rest IH]; intros acc st out k d Hrun Hd;
    simpl in Hrun.
  - injection Hrun as <-. right. split; [exact Hd | intros s' o' []].
  - bind_inv Hrun. rename v into r, Hv into Hr.
    destruct (status_eqb (status r) Fail) eqn:Est.
    + apply status_eqb_Fail in Est.
      destruct (IH _ _ _ _ _ Hrun Hd)
        as [(b & s1 & a & o & -> & Hk & Ho & Hf & Hdd & Hlast)
           | (Hacc & Hnone)].
      * left. exists (s :: b), s1, a, o. repeat split; auto.
      * destruct (string_dec k (class_name s)) as [-> | Hne].
        -- rewrite dict_get_set_eq in Hacc. injection Hacc as <-.
           left. exists [], s, rest, r. repeat split; auto.
        -- rewrite dict_get_set_ne in Hacc by assumption.
           right. split; [exact Hacc |].
           intros s' o' [<- | Hin] Hk Ho; [congruence | eauto].
    + assert (Hpass : status r <> Fail)
        by (intros Hf; apply status_eqb_Fail in Hf; congruence).
      destruct (IH _ _ _ _ _ Hrun Hd)
        as [(b & s1 & a & o & -> & Hk & Ho & Hf & Hdd & Hlast)
           | (Hacc & Hnone)].
      * left. exists (s :: b), s1, a, o. repeat split; auto.
      * right. split; [exact Hacc |].
        intros s' o' [<- | Hin] Hk Ho; [congruence | eauto].
Qed.

(** X14. Under a class-name key a composite outcome holds the
    differences of the last sub-strategy of that class that failed:
    when several sub-strategies of one class fail, the report of every
    one but the last is overwritten. *)
Theorem composite_key_holds_last_failed_of_class
  `{Reductions} `{TextFunctions}
  (strategies : list strategy) (expected_data actual_data : DataFrame)
  (out : outcome) (k : string) (d : detail) :
  validate expected_data actual_data (CompositeValidation strategies) = Ok out ->
  dict_get k (differences out) = Some d ->
  exists before s after o,
    strategies = before ++ s :: after
    /\ class_name s = k
    /\ validate expected_data actual_data s = Ok o
    /\ status o = Fail
    /\ d = Nested (differences o)
    /\ forall s', In s' after -> class_name s' = k ->
                  ~ failed expected_data actual_data s'.
Proof.
  intros Hrun Hd. rewrite validate_composite in Hrun.
  destruct (composite_loop_last_wins _ _ _ _ _ _ _ Hrun Hd)
    as [(b & s & a & o & Hl & Hk & Ho & Hf & Hdd & Hlast) | (Hacc & _)];
    [| discriminate Hacc].
  exists b, s, a, o. repeat split; try assumption.
  intros s' Hin Hk' (o' & Ho' & Hf'). exact (Hlast s' o' Hin Hk' Ho' Hf').
Qed.

Lemma composite_key_holds_last_failed_of_class_witness :
  exists before s after o,
    [NumericValidation 0; NumericValidation 0.25; NumericValidation 1]
    = before ++ s :: after
    /\ class_name s = "NumericValidation"
    /\ @validate reference_reductions literal_text
         half_apart_expected half_apart_actual s = Ok o
    /\ status o = Fail
    /\ Nested [("amt", ValueDiff [(0, CFloat 1)] [(0, CFloat 1.5)])]
       = Nested (differences o)
    /\ forall s', In s' after -> class_name s' = "NumericValidation" ->
                  ~ @failed reference_reductions literal_text
                      half_apart_expected half_apart_actual s'.
Proof.
  exact (@composite_key_holds_last_failed_of_class
           reference_reductions literal_text
           [NumericValidation 0; NumericValidation 0.25; NumericValidation 1]
           half_apart_expected half_apart_actual _ "NumericValidation" _
           eq_refl eq_refl).
Defined.

(** ** The orchestrator: summaries *)

Lemma validate_no_columns `{Reductions} `{TextFunctions}
  (expected_data actual_data : DataFrame) :
  columns expected_data = [] ->
  forall s, validate expected_data actual_data s
            = Ok {| status := Pass; differences := [] |}.
Proof.
  intros Hcols s.
  induction s as [s Hleaf | l IH] using strategy_rect_nested.
  - rewrite validate_leaf by assumption. unfold leaf_validate.
    now rewrite Hcols.
  - rewrite validate_composite.
    induction IH as [| s rest Hs _ IHrest]; simpl; [reflexivity |].
    rewrite Hs. simpl. exact IHrest.
Qed.

Lemma intersection_disjoint a b :
  (forall c, In c a -> ~ In c b) -> intersection a b = [].
Proof.
  intros Hdis. destruct (intersection a b) as [| c rest] eqn:E;
    [reflexivity | exfalso].
  assert (Hc : In c (intersection a b)) by (rewrite E; now left).
  apply intersection_In in Hc. destruct Hc as (Ha & Hb).
  exact (Hdis c Ha Hb).
Qed.

(** X15. A summary carries the row counts of the two query results as
    the connectors returned them, whatever columns the projection kept,
    and its details are non-empty exactly when its status is fail. *)
Theorem summary_row_counts_and_details
  `{Reductions} `{TextFunctions}
  (self : DataValidator) (source_query target_query : string)
  (params : option (list (string * string))) (s : summary) :
  validate_query self source_query target_query params = Ok s ->
  exists source_data target_data,
    execute_query (source_db self) source_query params = Ok source_data
    /\ execute_query (target_db self) target_query params = Ok target_data
    /\ source_rows s = len source_data
    /\ target_rows s = len target_data
    /\ (summary_status s = Fail <-> details s <> [])
    /\ (summary_status s = Pass <-> details s = []).
Proof.
  intros Hq. apply validate_query_Ok in Hq.
  unfold validate_query_body in Hq.
  bind_inv Hq. rename v into source_data, Hv into Hsrc.
  bind_inv Hq. rename v into target_data, Hv into Htgt.
  bind_inv Hq. rename v into source_view, Hv into Hps.
  bind_inv Hq. rename v into target_view, Hv into Hpt.
  bind_inv Hq. rename v into out, Hv into Hrun.
  injection Hq as <-.
  destruct (project_columns _ _ _ Hps) as (_ & Hls).
  destruct (project_columns _ _ _ Hpt) as (_ & Hlt).
  exists source_data, target_data. cbn [source_rows target_rows
                                         summary_status details].
  split; [exact Hsrc |]. split; [exact Htgt |].
  split; [exact Hls |]. split; [exact Hlt |].
  assert (Hfail : status out = Fail <-> differences out <> []).
  { clear - Hrun. generalize dependent out.
    induction (validation_strategy self) as [s0 Hleaf | l IH]
      using strategy_rect_nested; intros out Hrun.
    - rewrite validate_leaf in Hrun by assumption.
      apply leaf_validate_Ok in Hrun. destruct Hrun as (diffs & _ & ->).
      cbn. destruct diffs; cbn; split; congruence.
    - rewrite validate_composite in Hrun.
      rewrite (composite_loop_status _ _ _ _ _ Hrun eq_refl).
      destruct (differences out); cbn; split; congruence. }
  destruct (status out) eqn:Est; cbn [status_eqb].
  - split; split; intros Hx; try reflexivity; try discriminate Hx.
    now elim Hx.
  - split; [exact Hfail |]. split; [discriminate |].
    intros Hx. now elim (proj1 Hfail eq_refl).
Qed.

Lemma summary_row_counts_and_details_witness :
  exists s source_data target_data,
    @validate_query reference_reductions literal_text
      (connectors (Ok source_result) (Ok left_only) (NumericValidation 0))
      "q" "q" None = Ok s
    /\ execute_query (constant_connector (Ok source_result)) "q" None
       = Ok source_data
    /\ execute_query (constant_connector (Ok left_only)) "q" None
       = Ok target_data
    /\ source_rows s = len source_data
    /\ target_rows s = len target_data
    /\ (summary_status s = Fail <-> details s <> [])
    /\ (summary_status s = Pass <-> details s = []).
Proof.
  eexists.
  destruct (@summary_row_counts_and_details reference_reductions literal_text
              (connectors (Ok source_result) (Ok left_only)
                          (NumericValidation 0))
              "q" "q" None _ eq_refl) as (sd & td & Hrest).
  exists sd, td. split; [reflexivity | exact Hrest].
Defined.

(** X16. Two query results without a common column name pass under
    every strategy: the summary has status pass, no details, and the
    row counts of the two results. *)
Theorem disjoint_columns_always_pass
  `{Reductions} `{TextFunctions}
  (self : DataValidator) (source_query target_query : string)
  (params : option (list (string * string)))
  (source_data target_data : DataFrame) :
  execute_query (source_db self) source_query params = Ok source_data ->
  execute_query (target_db self) target_query params = Ok target_data ->
  (forall c, In c (columns source_data) -> ~ In c (columns target_data)) ->
  validate_query self source_query target_query params
  = Ok {| summary_status := Pass; details := [];
          source_rows := len source_data; target_rows := len target_data |}.
Proof.
  intros Hsrc Htgt Hdis. apply validate_query_Ok.
  unfold validate_query_body. rewrite Hsrc. cbn [bind]. rewrite Htgt.
  cbn [bind]. rewrite (intersection_disjoint _ _ Hdis).
  unfold project. cbn [select_columns bind].
  rewrite validate_no_columns by reflexivity. reflexivity.
Qed.

Lemma disjoint_columns_always_pass_witness :
  @validate_query reference_reductions literal_text
    (connectors (Ok left_only) (Ok right_only) CategoricalValidation)
    "q" "q" None
  = Ok {| summary_status := Pass; details := [];
          source_rows := 3; target_rows := 2 |}.
Proof.
  apply (@disjoint_columns_always_pass reference_reductions literal_text
           (connectors (Ok left_only) (Ok right_only) CategoricalValidation)
           "q" "q" None left_only right_only eq_refl eq_refl).
  intros c [<- | []] [Hb | []]. discriminate.
Defined.


(** ** The DuckDB connector under the orchestrator *)

(** A connector whose [connect] has failed is as it was built. *)
Lemma connect_failure_leaves_unconnected `{Ibis} path e :
  duckdb_connect path = Raise e ->
  snd (DuckDBConnector_connect (DuckDBConnector_init path))
  = DuckDBConnector_init path
  /\ fst (DuckDBConnector_connect (DuckDBConnector_init path))
     = Raise (DatabaseError ("Failed to connect to DuckDB: " ++ exn_str e)).
Proof.
  intros Hc. unfold DuckDBConnector_connect, DuckDBConnector_init.
  cbn [file_path]. now rewrite Hc.
Qed.

Lemma unconnected_execute_query_raises `{Ibis} self query params :
  connection self = None ->
  exists e,
    DuckDBConnector_execute_query self query params
    = Raise (DatabaseError ("Failed to execute DuckDB query: " ++ exn_str e)).
Proof.
  intros Hnone. unfold DuckDBConnector_execute_query.
  destruct (DuckDBConnector_execute_query_body self query params)
    as [df | e] eqn:Hbody; [| eauto].
  unfold DuckDBConnector_execute_query_body, connection_sql in Hbody.
  rewrite Hnone in Hbody. bind_inv Hbody. discriminate.
Qed.

(** X18. A DuckDB connector that was never connected, or whose
    [connect] failed, raises DatabaseError on every query; and a
    validator that has such a connector as its source raises NameError
    for [ValidationError] on every call, whatever the target connector
    and the strategy. *)
Theorem unconnected_source_makes_validate_query_raise
  `{Reductions} `{TextFunctions} `{Ibis}
  (path : string) (cause : exn) (target : DatabaseConnector) (s : strategy)
  (size : Z) (source_query target_query : string)
  (params : option (list (string * string))) :
  duckdb_connect path = Raise cause ->
  let source := snd (DuckDBConnector_connect (DuckDBConnector_init path)) in
  (exists e,
      DuckDBConnector_execute_query source source_query params
      = Raise (DatabaseError ("Failed to execute DuckDB query: " ++ exn_str e)))
  /\ validate_query
       {| source_db := as_connector source; target_db := target;
          validation_strategy := s; batch_size := size |}
       source_query target_query params
     = Raise (NameError "ValidationError").
Proof.
  intros Hc source.
  destruct (connect_failure_leaves_unconnected path cause Hc) as (Hself & _).
  subst source. rewrite Hself.
  destruct (unconnected_execute_query_raises
              (DuckDBConnector_init path) source_query params eq_refl)
    as (e & He).
  split; [eauto |].
  eapply validate_query_raises_NameError.
  unfold validate_query_body. cbn [source_db as_connector execute_query].
  rewrite He. reflexivity.
Qed.

Lemma unconnected_source_makes_validate_query_raise_witness :
  @DuckDBConnector_execute_query no_database
    (snd (@DuckDBConnector_connect no_database
            (DuckDBConnector_init "orders.duckdb")))
    "SELECT 1" None
  = Raise (DatabaseError
             "Failed to execute DuckDB query: 'NoneType' object has no attribute 'sql'")
  /\ @validate_query reference_reductions literal_text
       {| source_db :=
            @as_connector no_database
              (snd (@DuckDBConnector_connect no_database
                      (DuckDBConnector_init "orders.duckdb")));
          target_db := constant_connector (Ok target_result);
          validation_strategy := CategoricalValidation;
          batch_size := 25000%Z |}
       "SELECT 1" "SELECT 1" None
     = Raise (NameError "ValidationError").
Proof.
  split; [reflexivity |].
  exact (proj2 (@unconnected_source_makes_validate_query_raise
                  reference_reductions literal_text no_database
                  "orders.duckdb" _ (constant_connector (Ok target_result))
                  CategoricalValidation 25000%Z "SELECT 1" "SELECT 1" None
                  eq_refl)).
Defined.
